(** * Experiment tracking: run orchestration and metric aggregation

    A shallow embedding of the Python sources under [src/tracking]:

    - [experiment_metrics.py]  the stateful [network_size] aggregator,
    - [parse_functions.py]     the default parsing routines and their tables,
    - [experiment_runner.py]   the experiment invoker and the run wrappers,
    - [experiment_tracker.py]  the batch scheduler and [main].

    Python dictionaries whose iteration order is observable are association
    lists in insertion order; the function-local static buffer
    [network_size.metrics_storage] is a [gmap] carried in the process state.
    Calls that leave the process (the tracking backend, [subprocess.run],
    [makedirs], [print]) are recorded as events of a trace, oldest first.
    Python floats are idealised as exact rationals, plus the not-a-number
    value that [numpy.mean] yields on an empty array: rounding of IEEE
    doubles is outside this model. *)

From Stdlib Require Import ZArith QArith Qabs Permutation.
From stdpp Require Import gmap strings list pretty.

Set Default Proof Using "Type".

(** ** Python values *)

Module Py.

(** Scalars that a YAML document hands to the program and that end up in
    f-strings. Floats and nested containers inside a run configuration are
    not modelled. *)
Inductive pyval :=
| PNone
| PBool (b : bool)
| PInt (z : Z)
| PStr (s : string).

#[export] Instance pyval_eq_dec : EqDecision pyval.
Proof. solve_decision. Defined.

(** [str(v)], as used by [f"{v}"]. *)
Definition str (v : pyval) : string :=
  match v with
  | PNone => "None"
  | PBool true => "True"
  | PBool false => "False"
  | PInt z => pretty z
  | PStr s => s
  end.

(** A float: an exact rational, or NaN. *)
Inductive pyfloat :=
| Fin (q : Q)
| NaN.

Definition fadd (a b : pyfloat) : pyfloat :=
  match a, b with
  | Fin x, Fin y => Fin (x + y)
  | _, _ => NaN
  end.

(** Division of a float by a non-zero integer count. *)
Definition fdiv_count (a : pyfloat) (n : nat) : pyfloat :=
  match a with
  | Fin x => Fin (x / inject_Z (Z.of_nat n))
  | NaN => NaN
  end.

(** Equality of floats up to the representation of the rational. *)
Definition feq (a b : pyfloat) : Prop :=
  match a, b with
  | Fin x, Fin y => x == y
  | NaN, NaN => True
  | _, _ => False
  end.

Definition Qsum (l : list Q) : Q := foldr Qplus 0%Q l.

(** [numpy.mean] of a one-dimensional array: NaN on the empty array. *)
Definition np_mean (l : list Q) : pyfloat :=
  match l with
  | [] => NaN
  | _ :: _ => Fin (Qsum l / inject_Z (Z.of_nat (length l)))
  end.

Inductive exn :=
| ZeroDivisionError
| NotImplementedError (msg : string)
| ValueError (msg : string)
| FileExistsError (path : string).

End Py.
Export Py.

(** ** Process state, trace and the effect monad *)

(** One parsed metric file (a YAML mapping with all required keys). The
    x-values of the network-size metric are node counts. *)
Record MetricRecord := {
  mtype : string;              (* "type" *)
  metric_name : string;        (* "metric-name" *)
  x_values : list Z;           (* "x-values" *)
  y_values : list Q;           (* "y-values" *)
  x_axis : string;             (* "x-axis" *)
  y_axis : string              (* "y-axis" *)
}.

(** A run configuration: key/value pairs in insertion order. *)
Abbreviation Config := (list (string * pyval)).

(** The handle returned by [wandb.init]. *)
Record WandbRun := {
  run_id : string;
  run_group : string;
  run_cfg : Config
}.

Inductive logval :=
| VFloat (f : pyfloat)
| VLineSeries (xs : list Z) (ys : list (list pyfloat)) (keys : list string)
              (title xname : string)
| VTable (data : list string) (columns : list string).

Inductive event :=
| WandbInit (project : option string) (group : option string) (cfg : option Config)
| WandbLog (run : string) (key : string) (value : logval) (commit : option bool)
| WandbLogArtifact (run : string) (name type path : string)
| WandbFinish (run : string)
| Makedirs (path : string)
| SubprocessRun (cmd : list string)
| WandbSweep (project : string)
| Sleep (secs : Q)
| Print (msg : string).

Record world := World {
  metrics_storage : gmap string (list MetricRecord);
  paths : gset string;
  events : list event;
  runs_made : nat;       (* calls of wandb.init so far *)
  procs_run : nat;       (* calls of subprocess.run so far *)
  ids_made : nat         (* calls of wandb.util.generate_id so far *)
}.

Inductive outcome (A : Type) :=
| Ok (a : A)
| Raised (e : exn).
Arguments Ok {A} a.
Arguments Raised {A} e.

Definition M (A : Type) : Type := world → world * outcome A.

Definition ret {A} (a : A) : M A := λ w, (w, Ok a).

Definition bind {A B} (m : M A) (k : A → M B) : M B :=
  λ w, match m w with
       | (w', Ok a) => k a w'
       | (w', Raised e) => (w', Raised e)
       end.

Definition raise {A} (e : exn) : M A := λ w, (w, Raised e).

Declare Scope py_scope.
Delimit Scope py_scope with py.
Notation "x <- m ;; k" := (bind m (λ x, k))
  (at level 100, m at next level, right associativity) : py_scope.
Notation "m ;;; k" := (bind m (λ _, k))
  (at level 100, right associativity) : py_scope.
Open Scope py_scope.

Definition add_event (e : event) (w : world) : world :=
  World (metrics_storage w) (paths w) (events w ++ [e])
        (runs_made w) (procs_run w) (ids_made w).

Definition emit (e : event) : M unit := λ w, (add_event e w, Ok tt).

Definition get_storage : M (gmap string (list MetricRecord)) :=
  λ w, (w, Ok (metrics_storage w)).

Definition set_storage (s : gmap string (list MetricRecord)) : M unit :=
  λ w, (World s (paths w) (events w) (runs_made w) (procs_run w) (ids_made w), Ok tt).

(** [for x in l: body(x)] *)
Fixpoint for_each {A} (l : list A) (body : A → M unit) : M unit :=
  match l with
  | [] => ret tt
  | x :: l' => body x ;;; for_each l' body
  end.

(** ** experiment_metrics.py *)

Module Metrics.

(** [if x not in d: d[x] = []] followed by [d[x].append(y)] on an
    insertion-ordered dictionary. *)
Fixpoint aggregate_add (agg : list (Z * list Q)) (x : Z) (y : Q) : list (Z * list Q) :=
  match agg with
  | [] => [(x, [y])]
  | (k, v) :: rest =>
      if decide (k = x) then (k, v ++ [y]) :: rest
      else (k, v) :: aggregate_add rest x y
  end.

(** The inner loop over [zip(m["x-values"], m["y-values"])]. *)
Definition add_record (agg : list (Z * list Q)) (m : MetricRecord) : list (Z * list Q) :=
  fold_left (λ a p, aggregate_add a p.1 p.2) (zip (x_values m) (y_values m)) agg.

(** The outer loop over [metrics_list], from the empty dictionary. *)
Definition collect (metrics_list : list MetricRecord) : list (Z * list Q) :=
  fold_left add_record metrics_list [].

(** The second loop, replacing each sample list by its mean. *)
Definition reduce (agg : list (Z * list Q)) : list (Z * pyfloat) :=
  (λ kv, (kv.1, np_mean kv.2)) <$> agg.

(** Loop state of the logging loop: [avg_across_size[0]],
    [avg_across_size[1]], [x_values], [y_values]. *)
Record avg_state := {
  acc_sum : pyfloat;
  acc_count : nat;
  acc_xs : list Z;
  acc_ys : list pyfloat
}.

Definition avg_init : avg_state := Build_avg_state (Fin 0) 0 [] [].

Fixpoint log_sizes (run : WandbRun) (name : string) (items : list (Z * pyfloat))
    (st : avg_state) : M avg_state :=
  match items with
  | [] => ret st
  | (x, y) :: rest =>
      emit (WandbLog (run_id run) (name +:+ "_at_" +:+ pretty x) (VFloat y) (Some false)) ;;;
      log_sizes run name rest
        (Build_avg_state (fadd (acc_sum st) y) (S (acc_count st))
                         (acc_xs st ++ [x]) (acc_ys st ++ [y]))
  end.

(** Lines 42-75: reduce the flushed list and push it to the backend. *)
Definition aggregate_and_log (wandb_run : WandbRun) (metrics : MetricRecord)
    (method_args : gmap string pyval) (metrics_list : list MetricRecord) : M unit :=
  let name := metric_name metrics in
  let metrics_aggregate := reduce (collect metrics_list) in
  (* Standard charts: metric at each size, and the average across sizes *)
  st <- log_sizes wandb_run name metrics_aggregate avg_init ;;
  metrics_avg <- (if decide (acc_count st = 0) then raise ZeroDivisionError
                  else ret (fdiv_count (acc_sum st) (acc_count st))) ;;
  emit (WandbLog (run_id wandb_run) (name +:+ "_avg") (VFloat metrics_avg) (Some true)) ;;;
  (* Custom chart (line series), if required *)
  if decide (method_args !! "lineseries" = Some (PBool true)) then
    emit (WandbLog (run_id wandb_run) (name +:+ "_series")
            (VLineSeries (acc_xs st) [acc_ys st] [run_group wandb_run]
                         (y_axis metrics) (x_axis metrics)) None)
  else ret tt.

Definition network_size (wandb_run : WandbRun) (metrics : MetricRecord)
    (method_args : gmap string pyval) (last_file : bool) : M unit :=
  let name := metric_name metrics in
  (* Store metrics for later aggregation *)
  storage <- get_storage ;;
  let storage := match storage !! name with
                 | None => <[name := []]> storage
                 | Some _ => storage
                 end in
  let storage := alter (λ l, l ++ [metrics]) name storage in
  set_storage storage ;;;
  (* If we have not reached the last file, do not proceed with logging *)
  if negb last_file then ret tt else
  (* Last file reached: aggregate stored metrics and log *)
  match storage !! name with
  | None => ret tt
  | Some metrics_list =>
      set_storage (delete name storage) ;;;
      aggregate_and_log wandb_run metrics method_args metrics_list
  end.

(** The table [metric_type_handling]. *)
Inductive metric_handler := NetworkSize.

Definition metric_type_handling : gmap string metric_handler :=
  {[ "network-size" := NetworkSize ]}.

Definition call_metric_handler (h : metric_handler) :=
  match h with NetworkSize => network_size end.

End Metrics.

(** ** The world outside the process *)

(** One entry of a metrics directory as [listdir], [isfile] and [yaml.load]
    see it when the directory is parsed. *)
Record dir_entry := {
  fname : string;
  is_file : bool;
  yaml : MetricRecord
}.

(** What [exists], [isfile] and [readlines] report for a log path. *)
Inductive log_status :=
| LogMissing
| LogNotRegular
| LogLines (lines : list string).

Record env := {
  EXPERIMENT_SCRIPT : string;            (* expandvars("$EXPERIMENT_SCRIPT") *)
  EXP_ARGS : string;                     (* expandvars("$EXP_ARGS") *)
  listdir : string → list dir_entry;
  log_at : string → log_status;
  elapsed : nat → Q;                     (* wall-clock seconds of the n-th subprocess *)
  backend_run_id : nat → string;         (* identity given by the n-th wandb.init *)
  sweep_run_config : nat → Config;       (* configuration the sweep controller samples *)
  sweep_run_group : string;
  generate_id : nat → string;            (* n-th result of wandb.util.generate_id *)
  sweep_id : string                      (* result of wandb.sweep *)
}.

(** [s.endswith(suffix)] *)
Definition endswith (s suffix : string) : bool :=
  String.prefix (String.rev suffix) (String.rev s).

(** [os.path.join] on two components (POSIX). *)
Definition join (a b : string) : string :=
  if String.prefix "/" b then b
  else if bool_decide (a = "") || endswith a "/" then a +:+ b
  else a +:+ "/" +:+ b.

(** ** parse_functions.py *)

Module Parse.
Import Metrics.

Section WithEnv.
Variable E : env.

(** The body of the loop of [default_parse_metrics] for one directory entry. *)
Definition parse_metrics_file (wandb_run : WandbRun) (metrics_dirpath : string)
    (method_args : gmap string pyval) (last_file : bool) (ent : dir_entry) : M unit :=
  let filepath := join metrics_dirpath (fname ent) in
  if negb (is_file ent) || negb (endswith filepath ".yaml") then ret tt
  else
    let metrics := yaml ent in
    let metric_type := mtype metrics in
    match metric_type_handling !! metric_type with
    | None =>
        emit (Print ("WARNING: file '" +:+ filepath +:+
                     "' contains unsupported metric type '" +:+ metric_type +:+
                     "'; skipping"))
    | Some type_handling =>
        call_metric_handler type_handling wandb_run metrics method_args last_file
    end.

Definition default_parse_metrics (wandb_run : WandbRun) (metrics_dirpath : string)
    (method_args : gmap string pyval) (last_file : bool) : M unit :=
  for_each (listdir E metrics_dirpath)
           (parse_metrics_file wandb_run metrics_dirpath method_args last_file).

Definition default_parse_logfile (wandb_run : WandbRun) (log_filepath : string)
    (method_args : gmap string pyval) : M unit :=
  match log_at E log_filepath with
  | LogMissing => ret tt
  | LogNotRegular =>
      emit (WandbLog (run_id wandb_run) "logfile"
              (VTable ["ERROR: Path '" +:+ log_filepath +:+ "' is not a regular file."]
                      ["Logfile"]) None)
  | LogLines lines =>
      emit (WandbLog (run_id wandb_run) "logfile" (VTable lines ["Logfile"]) None)
  end.

Definition default_parse_artifacts (wandb_run : WandbRun) (artifact_dirpath : string)
    (method_args : gmap string pyval) : M unit :=
  emit (WandbLogArtifact (run_id wandb_run) "artifacts" "misc" artifact_dirpath).

End WithEnv.

(** The lookup tables, by the names of the routines they hold. *)
Inductive metrics_parser := DefaultParseMetrics.
Inductive logfile_parser := DefaultParseLogfile.
Inductive artifacts_parser := DefaultParseArtifacts.

Definition metric_dict : gmap string metrics_parser := {[ "default" := DefaultParseMetrics ]}.
Definition logfile_dict : gmap string logfile_parser := {[ "default" := DefaultParseLogfile ]}.
Definition artifact_dict : gmap string artifacts_parser := {[ "default" := DefaultParseArtifacts ]}.

Definition call_metrics_parser (E : env) (f : metrics_parser) :=
  match f with DefaultParseMetrics => default_parse_metrics E end.
Definition call_logfile_parser (E : env) (f : logfile_parser) :=
  match f with DefaultParseLogfile => default_parse_logfile E end.
Definition call_artifacts_parser (E : env) (f : artifacts_parser) :=
  match f with DefaultParseArtifacts => default_parse_artifacts end.

End Parse.

(** ** experiment_runner.py *)

Module Runner.
Import Parse.

(** [range(n)] and [range(a, b)] *)
Definition range (n : Z) : list Z := Z.of_nat <$> seq 0 (Z.to_nat n).
Definition range_from (a b : Z) : list Z := (λ i, (a + Z.of_nat i)%Z) <$> seq 0 (Z.to_nat (b - a)).

(** [makedirs(path)]: the leaf must not exist yet. *)
Definition makedirs (path : string) : M unit :=
  λ w, if decide (path ∈ paths w) then (w, Raised (FileExistsError path))
       else (World (metrics_storage w) ({[path]} ∪ paths w) (events w ++ [Makedirs path])
                   (runs_made w) (procs_run w) (ids_made w), Ok tt).

Section WithEnv.
Variable E : env.

(** [subprocess.run(cmd)] between two readings of the clock: the exit status
    is not looked at, the elapsed seconds are returned. *)
Definition subprocess_run_timed (cmd : list string) : M Q :=
  λ w, (World (metrics_storage w) (paths w) (events w ++ [SubprocessRun cmd])
              (runs_made w) (S (procs_run w)) (ids_made w), Ok (elapsed E (procs_run w))).

(** [wandb.init(project, group, config)]; without arguments (a sweep run) the
    backend supplies configuration and group. *)
Definition wandb_init (project group : option string) (cfg : option Config) : M WandbRun :=
  λ w, (World (metrics_storage w) (paths w) (events w ++ [WandbInit project group cfg])
              (S (runs_made w)) (procs_run w) (ids_made w),
        Ok {| run_id := backend_run_id E (runs_made w);
              run_group := default (sweep_run_group E) group;
              run_cfg := default (sweep_run_config E (runs_made w)) cfg |}).

(** The command line of [run_single_experiment], built by successive appends. *)
Definition build_cmd (config : Config) (metrics_dirpath : string)
    (log_filepath artifacts_dirpath : option string) (out_of_config : Config) : list string :=
  let cmd := ["bash"; EXPERIMENT_SCRIPT E] in
  (* First 3 arguments are metrics dir, logfile path, and artifacts dir (if any) *)
  let cmd := cmd ++ [metrics_dirpath] in
  let cmd := match log_filepath with Some p => cmd ++ [p] | None => cmd end in
  let cmd := match artifacts_dirpath with Some p => cmd ++ [p] | None => cmd end in
  (* Rest of the arguments: static experiment args and run-specific args *)
  let cmd := cmd ++ [EXP_ARGS E] in
  let cmd := fold_left (λ c kv, c ++ ["--" +:+ kv.1 +:+ "=" +:+ str kv.2]) config cmd in
  let cmd := fold_left (λ c kv, c ++ ["--" +:+ kv.1 +:+ "=" +:+ str kv.2]) out_of_config cmd in
  cmd.

Definition run_single_experiment (config : Config) (metrics_dirpath : string)
    (log_filepath artifacts_dirpath : option string) (out_of_config : Config) : M Q :=
  subprocess_run_timed
    (build_cmd config metrics_dirpath log_filepath artifacts_dirpath out_of_config).

(** [enumerate(l)] *)
Definition enumerate {A} (l : list A) : list (nat * A) := imap pair l.

(** The metrics loop of [run_parse_functions], for any callable. *)
Definition parse_metrics_dirs (wandb_run : WandbRun) (metrics_dirlist : list string)
    (metrics_parse_function : WandbRun → string → gmap string pyval → bool → M unit)
    (metrics_method_args : gmap string pyval) : M unit :=
  for_each (enumerate metrics_dirlist)
    (λ p, metrics_parse_function wandb_run p.2 metrics_method_args
            (bool_decide (Z.of_nat p.1 = (Z.of_nat (length metrics_dirlist) - 1)%Z))).

Definition run_parse_functions (wandb_run : WandbRun)
    (metrics_dirlist logs_pathlist artifacts_dirlist : list string)
    (metrics_parse_function : option (WandbRun → string → gmap string pyval → bool → M unit))
    (metrics_method_args : gmap string pyval)
    (logfile_parse_function : option (WandbRun → string → gmap string pyval → M unit))
    (logfile_method_args : gmap string pyval)
    (artifacts_parse_function : option (WandbRun → string → gmap string pyval → M unit))
    (artifacts_method_args : gmap string pyval) : M unit :=
  (match metrics_parse_function with
   | Some f => parse_metrics_dirs wandb_run metrics_dirlist f metrics_method_args
   | None => ret tt
   end) ;;;
  (match logfile_parse_function with
   | Some f => for_each logs_pathlist (λ log_filepath, f wandb_run log_filepath logfile_method_args)
   | None => ret tt
   end) ;;;
  (match artifacts_parse_function with
   | Some f => for_each artifacts_dirlist
                 (λ artifacts_dirpath, f wandb_run artifacts_dirpath artifacts_method_args)
   | None => ret tt
   end).

(** The fields of [RunWrapperBase]; parsing routines are held by name. *)
Record RunWrapperBase := {
  _group_id : string;
  _metrics_dirpath : string;
  _log_dirpath : option string;
  _artifacts_dirpath : option string;
  _metrics_fn : option metrics_parser;
  _metrics_args : gmap string pyval;
  _logfile_fn : option logfile_parser;
  _logfile_args : gmap string pyval;
  _artifacts_fn : option artifacts_parser;
  _artifacts_args : gmap string pyval
}.

Record RunWrapperSimple := {
  simple_base : RunWrapperBase;
  _proj_name : option string;
  _run_config : Config
}.

Record RunWrapperSweep := {
  sweep_base : RunWrapperBase;
  _runs_per_sweep : Z
}.

Definition parse_outputs (self : RunWrapperBase) (wandb_run : WandbRun)
    (metrics_dirs log_files artifacts_dirs : list string) : M unit :=
  run_parse_functions wandb_run metrics_dirs log_files artifacts_dirs
    (call_metrics_parser E <$> _metrics_fn self) (_metrics_args self)
    (call_logfile_parser E <$> _logfile_fn self) (_logfile_args self)
    (call_artifacts_parser E <$> _artifacts_fn self) (_artifacts_args self).

(** [RunWrapperSimple.create_run] *)
Definition simple_create_run (self : RunWrapperSimple) : M WandbRun :=
  wandb_init (_proj_name self) (Some (_group_id (simple_base self))) (Some (_run_config self)).

(** [RunWrapperSweep.create_run] *)
Definition sweep_create_run (self : RunWrapperSweep) : M WandbRun :=
  wandb_init None None None.

(** The three run-specific locations; [suffix] is empty for a simple run and
    ["_<curr_run>"] for a repetition of a sweep run. *)
Definition make_run_dirs (self : RunWrapperBase) (wandb_run : WandbRun) (suffix : string)
    : M (string * option string * option string) :=
  let dir_prefix := _group_id self in
  let curr_metrics_dir :=
    join (_metrics_dirpath self) (dir_prefix +:+ "_run_" +:+ run_id wandb_run +:+ suffix) in
  makedirs curr_metrics_dir ;;;
  let curr_logfile :=
    (λ d, join d (dir_prefix +:+ "_run_" +:+ run_id wandb_run +:+ suffix +:+ ".log"))
      <$> _log_dirpath self in
  let curr_artifacts_dir :=
    (λ d, join d (dir_prefix +:+ "_run_" +:+ run_id wandb_run +:+ suffix))
      <$> _artifacts_dirpath self in
  (match curr_artifacts_dir with
   | Some d => makedirs d
   | None => ret tt
   end) ;;;
  ret (curr_metrics_dir, curr_logfile, curr_artifacts_dir).

(** [RunWrapperBase._do_run_experiment], entered through
    [RunWrapperSimple.setup_run]. *)
Definition simple_do_run_experiment (self : RunWrapperSimple) : M unit :=
  wandb_run <- simple_create_run self ;;
  dirs <- make_run_dirs (simple_base self) wandb_run "" ;;
  let '(curr_metrics_dir, curr_logfile, curr_artifacts_dir) := dirs in
  duration <- run_single_experiment (run_cfg wandb_run) curr_metrics_dir
                curr_logfile curr_artifacts_dir [] ;;
  parse_outputs (simple_base self) wandb_run
    [curr_metrics_dir] (option_list curr_logfile) (option_list curr_artifacts_dir) ;;;
  emit (WandbLog (run_id wandb_run) "duration_secs" (VFloat (Fin duration)) None) ;;;
  emit (WandbFinish (run_id wandb_run)).

(** The lists filled by the loop of [RunWrapperSweep._do_run_experiment]. *)
Record sweep_lists := {
  durations : list Q;
  metrics_dirs : list string;
  log_files : list string;
  artifacts_dirs : list string
}.

(** One iteration of that loop. *)
Definition sweep_iteration (self : RunWrapperSweep) (wandb_run : WandbRun)
    (acc : sweep_lists) (curr_run : Z) : M sweep_lists :=
  dirs <- make_run_dirs (sweep_base self) wandb_run ("_" +:+ pretty curr_run) ;;
  let '(curr_metrics_dir, curr_logfile, curr_artifacts_dir) := dirs in
  (* Actually run the experiment (passing the "run" number too) *)
  duration <- run_single_experiment (run_cfg wandb_run) curr_metrics_dir
                curr_logfile curr_artifacts_dir [("run", PInt curr_run)] ;;
  ret {| durations := durations acc ++ [duration];
         metrics_dirs := metrics_dirs acc ++ [curr_metrics_dir];
         log_files := log_files acc ++ option_list curr_logfile;
         artifacts_dirs := artifacts_dirs acc ++ option_list curr_artifacts_dir |}.

Fixpoint sweep_loop (self : RunWrapperSweep) (wandb_run : WandbRun)
    (runs : list Z) (acc : sweep_lists) : M sweep_lists :=
  match runs with
  | [] => ret acc
  | curr_run :: rest =>
      acc' <- sweep_iteration self wandb_run acc curr_run ;;
      sweep_loop self wandb_run rest acc'
  end.

(** [RunWrapperSweep._do_run_experiment] *)
Definition sweep_do_run_experiment (self : RunWrapperSweep) : M unit :=
  wandb_run <- sweep_create_run self ;;
  acc <- sweep_loop self wandb_run (range (_runs_per_sweep self))
           {| durations := []; metrics_dirs := []; log_files := []; artifacts_dirs := [] |} ;;
  parse_outputs (sweep_base self) wandb_run
    (metrics_dirs acc) (log_files acc) (artifacts_dirs acc) ;;;
  (* Track average run duration *)
  let duration := np_mean (durations acc) in
  emit (WandbLog (run_id wandb_run) "duration_secs" (VFloat duration) None) ;;;
  emit (WandbFinish (run_id wandb_run)).

End WithEnv.
End Runner.

(** ** experiment_tracker.py *)

Module Tracker.
Import Parse Runner.

(** One entry of the [parsing-setup] section. *)
Record method_conf := {
  method : option string;                   (* "method" *)
  args : option (gmap string pyval)         (* "args" *)
}.

Record parsing_setup := {
  ps_metrics : option method_conf;          (* "metrics" *)
  ps_logfile : option method_conf;          (* "logfile" *)
  ps_artifacts : option method_conf         (* "artifacts" *)
}.

(** The [run-setup] section; the counts are YAML integers. *)
Record run_setup := {
  group_by : option string;                 (* "group-by" *)
  num_runs_limit : option Z;                (* "num-runs-limit" *)
  num_runs_start : option Z;                (* "num-runs-start" *)
  parallel : option Z                       (* "parallel" *)
}.

(** The document read from [config_path]; [params] holds every other key. *)
Record config_doc := {
  parsing_setup_of : option parsing_setup;  (* "parsing-setup" *)
  run_setup_of : option run_setup;          (* "run-setup" *)
  params : Config
}.

(** [config = {}] *)
Definition empty_config : config_doc :=
  {| parsing_setup_of := None; run_setup_of := None; params := [] |}.

(** The [sweep-setup] section of the document read from [sweep_path]. *)
Record sweep_setup := {
  agents : option Z;                        (* "agents" *)
  runs_per_sweep : option Z                 (* "runs-per-sweep" *)
}.

(** [d[k] = v] on an insertion-ordered dictionary. *)
Fixpoint dict_set (d : Config) (k : string) (v : pyval) : Config :=
  match d with
  | [] => [(k, v)]
  | (k', v') :: rest =>
      if decide (k' = k) then (k', v) :: rest else (k', v') :: dict_set rest k v
  end.

Section WithEnv.
Variable E : env.

Definition wandb_generate_id : M string :=
  λ w, (World (metrics_storage w) (paths w) (events w) (runs_made w) (procs_run w)
              (S (ids_made w)), Ok (generate_id E (ids_made w))).

Definition new_base (group_id metrics_dirpath : string)
    (log_dirpath artifacts_dirpath : option string)
    (metrics_parse_function : option metrics_parser) (metrics_method_args : gmap string pyval)
    (logfile_parse_function : option logfile_parser) (logfile_method_args : gmap string pyval)
    (artifacts_parse_function : option artifacts_parser)
    (artifacts_method_args : gmap string pyval) : RunWrapperBase :=
  {| _group_id := group_id; _metrics_dirpath := metrics_dirpath;
     _log_dirpath := log_dirpath; _artifacts_dirpath := artifacts_dirpath;
     _metrics_fn := metrics_parse_function; _metrics_args := metrics_method_args;
     _logfile_fn := logfile_parse_function; _logfile_args := logfile_method_args;
     _artifacts_fn := artifacts_parse_function; _artifacts_args := artifacts_method_args |}.

(** The worker-spawning loop of [perform_sweep]; the result lists the
    wrappers whose [setup_run] the started processes execute. *)
Fixpoint sweep_workers (sweep_agents : Z) (wrapper : RunWrapperSweep)
    (iterations : list Z) (workers : list RunWrapperSweep) : M (list RunWrapperSweep) :=
  match iterations with
  | [] => ret workers
  | _ :: rest =>
      (if bool_decide (1 < sweep_agents)%Z then emit (Sleep 0.5) else ret tt) ;;;
      sweep_workers sweep_agents wrapper rest (workers ++ [wrapper])
  end.

Definition perform_sweep (proj_name : string) (sweep_config : option sweep_setup)
    (metrics_dirpath : string) (log_dirpath artifacts_dirpath : option string)
    (metrics_parse_function : option metrics_parser) (metrics_method_args : gmap string pyval)
    (logfile_parse_function : option logfile_parser) (logfile_method_args : gmap string pyval)
    (artifacts_parse_function : option artifacts_parser)
    (artifacts_method_args : gmap string pyval) : M (list RunWrapperSweep) :=
  (* Fetch settings for sweep instances *)
  let sweep_agents := default 1%Z (sweep_config ≫= agents) in
  let runs_per_sweep := default 1%Z (sweep_config ≫= runs_per_sweep) in
  (* Initialize sweep *)
  emit (WandbSweep proj_name) ;;;
  let wrapper :=
    {| sweep_base := new_base (sweep_id E) metrics_dirpath log_dirpath artifacts_dirpath
                       metrics_parse_function metrics_method_args
                       logfile_parse_function logfile_method_args
                       artifacts_parse_function artifacts_method_args;
       _runs_per_sweep := runs_per_sweep |} in
  sweep_workers sweep_agents wrapper (range sweep_agents) [].

(** Loop state of [perform_single_experiment]: the variable [group_id], the
    dictionary [config] that every iteration writes to, and [tasks]. *)
Record batch_state := {
  bs_group_id : option string;
  bs_config : Config;
  bs_tasks : list RunWrapperSimple
}.

Definition submit_run (proj_name : string) (parallel : Z)
    (base : string → RunWrapperBase) (st : batch_state) (curr_run : Z) : M batch_state :=
  group_id <- (match bs_group_id st with
               | None => wandb_generate_id
               | Some g => if bool_decide (g = "auto") then wandb_generate_id else ret g
               end) ;;
  let curr_config := dict_set (bs_config st) "run" (PInt curr_run) in
  let wrapper := {| simple_base := base group_id;
                    _proj_name := Some proj_name;
                    _run_config := curr_config |} in
  (* Only necessary in parallel case *)
  (if bool_decide (1 < parallel)%Z then emit (Sleep 0.5) else ret tt) ;;;
  ret {| bs_group_id := Some group_id;
         bs_config := curr_config;
         bs_tasks := bs_tasks st ++ [wrapper] |}.

Fixpoint submit_runs (proj_name : string) (parallel : Z)
    (base : string → RunWrapperBase) (runs : list Z) (st : batch_state) : M batch_state :=
  match runs with
  | [] => ret st
  | curr_run :: rest =>
      st' <- submit_run proj_name parallel base st curr_run ;;
      submit_runs proj_name parallel base rest st'
  end.

(** The result lists, in submission order, the wrappers whose [setup_run]
    the pool executes. A wrapper is recorded with the configuration as it is
    when the task is submitted. *)
Definition perform_single_experiment (proj_name : string) (run_config : run_setup)
    (config : Config) (metrics_dirpath : string) (log_dirpath artifacts_dirpath : option string)
    (metrics_parse_function : option metrics_parser) (metrics_method_args : gmap string pyval)
    (logfile_parse_function : option logfile_parser) (logfile_method_args : gmap string pyval)
    (artifacts_parse_function : option artifacts_parser)
    (artifacts_method_args : gmap string pyval) : M (list RunWrapperSimple) :=
  (* Fetch run settings, with safe defaults *)
  let group_id := group_by run_config in
  let runs := default 1%Z (num_runs_limit run_config) in
  let starting_run := default 0%Z (num_runs_start run_config) in
  (* Fetch parallelism setting for repeated run instances *)
  let parallel := default 1%Z (parallel run_config) in
  (* mp.Pool(processes=parallel) *)
  if bool_decide (parallel < 1)%Z
  then raise (ValueError "Number of processes must be at least 1")
  else
    st <- submit_runs proj_name parallel
            (λ g, new_base g metrics_dirpath log_dirpath artifacts_dirpath
                    metrics_parse_function metrics_method_args
                    logfile_parse_function logfile_method_args
                    artifacts_parse_function artifacts_method_args)
            (range_from starting_run runs)
            {| bs_group_id := group_id; bs_config := config; bs_tasks := [] |} ;;
    ret (bs_tasks st).

(** What [main] hands to the scheduler once the parsing routines are known. *)
Record parsers := {
  metric_fn : option metrics_parser;   metric_args : gmap string pyval;
  logfile_fn : option logfile_parser;  logfile_args : gmap string pyval;
  artifact_fn : option artifacts_parser; artifact_args : gmap string pyval
}.

(** Lines 178-213 of [main]: check parsing functions before running any
    experiment. *)
Definition check_parsing_functions (config : config_doc) : M parsers :=
  let ps :=
    match parsing_setup_of config with
    | Some parsing_conf =>
        {| metric_fn := c ← ps_metrics parsing_conf; metric_dict !! default "default" (method c);
           metric_args := default ∅ (ps_metrics parsing_conf ≫= args);
           logfile_fn := c ← ps_logfile parsing_conf; logfile_dict !! default "default" (method c);
           logfile_args := default ∅ (ps_logfile parsing_conf ≫= args);
           artifact_fn := c ← ps_artifacts parsing_conf;
                          artifact_dict !! default "default" (method c);
           artifact_args := default ∅ (ps_artifacts parsing_conf ≫= args) |}
    | None =>
        {| metric_fn := None; metric_args := ∅; logfile_fn := None; logfile_args := ∅;
           artifact_fn := None; artifact_args := ∅ |}
    end in
  if decide (metric_fn ps = None)
  then raise (NotImplementedError "Metric parsing function not found")
  else if decide (logfile_fn ps = None)
  then raise (NotImplementedError "Logfile parsing function not found")
  else if decide (artifact_fn ps = None)
  then raise (NotImplementedError "Artifacts parsing function not found")
  else ret ps.

(** [main]; [config] and [sweep] are the documents loaded from [config_path]
    and [sweep_path], absent when the path is. *)
Definition main (proj_name metrics_dir : string) (logs_dir artifacts_dir : option string)
    (config : option config_doc) (sweep : option (option sweep_setup))
    : M (list RunWrapperSweep + list RunWrapperSimple) :=
  let config := default empty_config config in
  ps <- check_parsing_functions config ;;
  match sweep with
  | Some sweep_config =>
      ws <- perform_sweep proj_name sweep_config metrics_dir logs_dir artifacts_dir
              (metric_fn ps) (metric_args ps) (logfile_fn ps) (logfile_args ps)
              (artifact_fn ps) (artifact_args ps) ;;
      ret (inl ws)
  | None =>
      let run_config :=
        default {| group_by := None; num_runs_limit := None;
                   num_runs_start := None; parallel := None |} (run_setup_of config) in
      ws <- perform_single_experiment proj_name run_config (params config)
              metrics_dir logs_dir artifacts_dir
              (metric_fn ps) (metric_args ps) (logfile_fn ps) (logfile_args ps)
              (artifact_fn ps) (artifact_args ps) ;;
      ret (inr ws)
  end.

End WithEnv.
End Tracker.

(** ** Vocabulary of the statements *)

Module Spec.
Import Metrics Parse Runner Tracker.

(** The state after a further run of events. *)
Definition add_events (es : list event) (w : world) : world :=
  World (metrics_storage w) (paths w) (events w ++ es)
        (runs_made w) (procs_run w) (ids_made w).

(** The state with another aggregation buffer. *)
Definition with_storage (s : gmap string (list MetricRecord)) (w : world) : world :=
  World s (paths w) (events w) (runs_made w) (procs_run w) (ids_made w).

(** The records buffered under a metric name. *)
Definition buffered (name : string) (w : world) : list MetricRecord :=
  default [] (metrics_storage w !! name).

(** All (x, y) sample pairs across the records of a list, in order. *)
Definition pooled (metrics_list : list MetricRecord) : list (Z * Q) :=
  metrics_list ≫= (λ m, zip (x_values m) (y_values m)).

(** The distinct values of a list, in order of first appearance. *)
Definition first_seen (l : list Z) : list Z :=
  foldl (λ acc x, if decide (x ∈ acc) then acc else acc ++ [x]) [] l.

(** The y samples pooled for one x. *)
Definition samples_at (x : Z) (ps : list (Z * Q)) : list Q :=
  (filter (λ p, p.1 = x) ps).*2.

(** For every distinct x, the mean of the samples pooled for it. *)
Definition per_x_means (metrics_list : list MetricRecord) : list (Z * pyfloat) :=
  (λ x, (x, np_mean (samples_at x (pooled metrics_list))))
    <$> first_seen (pooled metrics_list).*1.

(** The scalar write ["<metricName>_at_<x>"]. *)
Definition at_event (run : WandbRun) (name : string) (kv : Z * pyfloat) : event :=
  WandbLog (run_id run) (name +:+ "_at_" +:+ pretty kv.1) (VFloat kv.2) (Some false).

(** The scalar write ["<metricName>_avg"]. *)
Definition avg_event (run : WandbRun) (name : string) (avg : pyfloat) : event :=
  WandbLog (run_id run) (name +:+ "_avg") (VFloat avg) (Some true).

(** The optional line-series write. *)
Definition series_events (run : WandbRun) (m : MetricRecord) (method_args : gmap string pyval)
    (items : list (Z * pyfloat)) : list event :=
  if decide (method_args !! "lineseries" = Some (PBool true)) then
    [WandbLog (run_id run) (metric_name m +:+ "_series")
       (VLineSeries items.*1 [items.*2] [run_group run] (y_axis m) (x_axis m)) None]
  else [].

(** The sum that the logging loop accumulates, and the average it yields. *)
Definition sum_means (items : list (Z * pyfloat)) : pyfloat := foldl fadd (Fin 0) items.*2.
Definition avg_means (items : list (Z * pyfloat)) : pyfloat :=
  fdiv_count (sum_means items) (length items).

(** Everything one flush writes. *)
Definition flush_events (run : WandbRun) (m : MetricRecord) (method_args : gmap string pyval)
    (items : list (Z * pyfloat)) : list event :=
  (at_event run (metric_name m) <$> items)
  ++ [avg_event run (metric_name m) (avg_means items)]
  ++ series_events run m method_args items.

(** Is this event the emission of the aggregate of [name]? *)
Definition is_avg_log (name : string) (e : event) : bool :=
  match e with
  | WandbLog _ key _ _ => bool_decide (key = name +:+ "_avg")
  | _ => false
  end.

Definition aggregates_emitted (name : string) (es : list event) : nat :=
  length (filter (λ e, is_avg_log name e = true) es).

(** A sequence of records with the terminal flag on the last one only. *)
Definition ingest_sequence (run : WandbRun) (method_args : gmap string pyval)
    (rs : list MetricRecord) (r_last : MetricRecord) : M unit :=
  for_each rs (λ r, network_size run r method_args false) ;;;
  network_size run r_last method_args true.




(** The warning that [default_parse_metrics] prints for a skipped file. *)
Definition unsupported_warning (metrics_dirpath : string) (ent : dir_entry) : event :=
  Print ("WARNING: file '" +:+ join metrics_dirpath (fname ent) +:+
         "' contains unsupported metric type '" +:+ mtype (yaml ent) +:+
         "'; skipping").

(** One [--key=value] token. *)
Definition token (kv : string * pyval) : string := "--" +:+ kv.1 +:+ "=" +:+ str kv.2.

(** The command lines executed, the runs finished and the values logged as
    ["duration_secs"] in a trace, each in order. *)
Definition subprocess_calls (es : list event) : list (list string) :=
  omap (λ e, match e with SubprocessRun cmd => Some cmd | _ => None end) es.
Definition finishes (es : list event) : list string :=
  omap (λ e, match e with WandbFinish id => Some id | _ => None end) es.
Definition duration_logs (es : list event) : list logval :=
  omap (λ e, match e with
             | WandbLog _ key v _ => if decide (key = "duration_secs") then Some v else None
             | _ => None
             end) es.

(** Events that parsing routines produce. *)
Definition parse_event (e : event) : Prop :=
  match e with
  | WandbLog _ key _ _ => key ≠ "duration_secs"
  | WandbLogArtifact _ _ _ _ | Print _ => True
  | _ => False
  end.

Definition dir_event (e : event) : Prop :=
  match e with Makedirs _ => True | _ => False end.

(** Every event a computation adds to the trace satisfies [P]. *)
Definition emits {A} (P : event → Prop) (m : M A) : Prop :=
  ∀ w w' r, m w = (w', r) → ∃ es, events w' = events w ++ es ∧ Forall P es.

(** The three locations of a run, as [make_run_dirs] names them. *)
Definition run_dirs (self : RunWrapperBase) (wandb_run : WandbRun) (suffix : string)
    : string * option string * option string :=
  let dir_prefix := _group_id self in
  (join (_metrics_dirpath self) (dir_prefix +:+ "_run_" +:+ run_id wandb_run +:+ suffix),
   (λ d, join d (dir_prefix +:+ "_run_" +:+ run_id wandb_run +:+ suffix +:+ ".log"))
     <$> _log_dirpath self,
   (λ d, join d (dir_prefix +:+ "_run_" +:+ run_id wandb_run +:+ suffix))
     <$> _artifacts_dirpath self).

(** The tracked run a sweep wrapper acquires in state [w]. *)
Definition sweep_run (E : env) (w : world) : WandbRun :=
  {| run_id := backend_run_id E (runs_made w);
     run_group := sweep_run_group E;
     run_cfg := sweep_run_config E (runs_made w) |}.

(** The metrics directory and the command line of repetition [curr_run]. *)
Definition sweep_metrics_dir (self : RunWrapperSweep) (run : WandbRun) (curr_run : Z) : string :=
  (run_dirs (sweep_base self) run ("_" +:+ pretty curr_run)).1.1.
Definition sweep_cmd (E : env) (self : RunWrapperSweep) (run : WandbRun) (curr_run : Z)
    : list string :=
  let dirs := run_dirs (sweep_base self) run ("_" +:+ pretty curr_run) in
  build_cmd E (run_cfg run) dirs.1.1 dirs.1.2 dirs.2 [("run", PInt curr_run)].


End Spec.

(** ** Concrete data used in examples *)

Module Sample.
Import Parse Runner Tracker.

Definition w0 : world := World ∅ ∅ [] 0 0 0.
Definition run0 : WandbRun := {| run_id := "r1"; run_group := "g"; run_cfg := [] |}.

(** Two runs of the scenario of the specification: x-values 50, 100, 150. *)
Definition rec1 : MetricRecord :=
  {| mtype := "network-size"; metric_name := "pdr";
     x_values := [50; 100; 150]%Z; y_values := [0.9; 0.7; 0.5]%Q;
     x_axis := "nodes"; y_axis := "PDR" |}.
Definition rec2 : MetricRecord :=
  {| mtype := "network-size"; metric_name := "pdr";
     x_values := [50; 100; 150]%Z; y_values := [0.92; 0.68; 0.45]%Q;
     x_axis := "nodes"; y_axis := "PDR" |}.

(** A metric file whose sequences are empty. *)
Definition rec_empty : MetricRecord :=
  {| mtype := "network-size"; metric_name := "pdr";
     x_values := []; y_values := []; x_axis := "nodes"; y_axis := "PDR" |}.

(** A metric file of a type without handler. *)
Definition rec_histogram : MetricRecord :=
  {| mtype := "latency-histogram"; metric_name := "latency";
     x_values := [1; 2]%Z; y_values := [0.25; 0.75]%Q;
     x_axis := "bucket"; y_axis := "share" |}.

Definition entry_a : dir_entry :=
  {| fname := "pdr_a.yaml"; is_file := true; yaml := rec1 |}.
Definition entry_histogram : dir_entry :=
  {| fname := "latency.yaml"; is_file := true; yaml := rec_histogram |}.
Definition entry_b : dir_entry :=
  {| fname := "pdr_b.yaml"; is_file := true; yaml := rec2 |}.

Definition entries : list dir_entry := [entry_a; entry_histogram; entry_b].

Definition sweep_wrapper : RunWrapperSweep :=
  {| sweep_base :=
       {| _group_id := "sw33p"; _metrics_dirpath := "/metrics";
          _log_dirpath := Some "/logs"; _artifacts_dirpath := None;
          _metrics_fn := Some DefaultParseMetrics; _metrics_args := ∅;
          _logfile_fn := Some DefaultParseLogfile; _logfile_args := ∅;
          _artifacts_fn := Some DefaultParseArtifacts; _artifacts_args := ∅ |};
     _runs_per_sweep := 3 |}.

Definition batch_setup : run_setup :=
  {| group_by := Some "auto"; num_runs_limit := Some 4%Z;
     num_runs_start := Some 0%Z; parallel := Some 2%Z |}.

Definition env0 : env :=
  {| EXPERIMENT_SCRIPT := "simulate.sh";
     EXP_ARGS := "--quiet";
     listdir := λ _, entries;
     log_at := λ _, LogMissing;
     elapsed := λ n, inject_Z (Z.of_nat (S n));
     backend_run_id := λ n, "run" +:+ pretty n;
     sweep_run_config := λ _, [("nodes", PInt 50)];
     sweep_run_group := "";
     generate_id := λ _, "k3x9q2ab";
     sweep_id := "sw33p" |}.

End Sample.

(** ** Vocabulary of further statements *)

Module Cover.
Import Metrics Parse Runner Tracker Spec.

(** Does [default_parse_metrics] read this entry of directory [dir]? *)
Definition eligible (dir : string) (ent : dir_entry) : bool :=
  is_file ent && endswith (join dir (fname ent)) ".yaml".

(** Is the type of the entry's metric in the handler table? *)
Definition supported (ent : dir_entry) : bool :=
  bool_decide (is_Some (metric_type_handling !! mtype (yaml ent))).


(** A scalar write of the run. *)
Definition is_scalar_of (run : WandbRun) (e : event) : Prop :=
  ∃ key v commit, e = WandbLog (run_id run) key (VFloat v) commit.

(** Events other than the finish of a run and the write of its duration. *)
Definition not_final (e : event) : Prop :=
  match e with
  | WandbFinish _ => False
  | WandbLog _ key _ _ => key ≠ "duration_secs"
  | _ => True
  end.

(** The tracked run a simple wrapper creates in state [w]. *)
Definition simple_run (E : env) (self : RunWrapperSimple) (w : world) : WandbRun :=
  {| run_id := backend_run_id E (runs_made w);
     run_group := _group_id (simple_base self);
     run_cfg := _run_config self |}.

(** An environment whose metrics directories each hold the one file
    [Sample.entry_a]. *)
Definition env_one_file : env :=
  {| EXPERIMENT_SCRIPT := "simulate.sh"; EXP_ARGS := "--quiet";
     listdir := λ _, [Sample.entry_a];
     log_at := λ _, LogMissing;
     elapsed := λ n, inject_Z (Z.of_nat (S n));
     backend_run_id := λ n, "run" +:+ pretty n;
     sweep_run_config := λ _, [("nodes", PInt 50)];
     sweep_run_group := "";
     generate_id := λ _, "k3x9q2ab";
     sweep_id := "sw33p" |}.

(** An environment whose metrics directories each hold one file without
    samples. *)
Definition env_empty_file : env :=
  {| EXPERIMENT_SCRIPT := "simulate.sh"; EXP_ARGS := "--quiet";
     listdir := λ _, [{| fname := "pdr.yaml"; is_file := true; yaml := Sample.rec_empty |}];
     log_at := λ _, LogMissing;
     elapsed := λ n, inject_Z (Z.of_nat (S n));
     backend_run_id := λ n, "run" +:+ pretty n;
     sweep_run_config := λ _, [("nodes", PInt 50)];
     sweep_run_group := "";
     generate_id := λ _, "k3x9q2ab";
     sweep_id := "sw33p" |}.

(** A simple wrapper, and one whose artifacts directory is its metrics
    directory. *)
Definition simple_wrapper : RunWrapperSimple :=
  {| simple_base :=
       {| _group_id := "k3x9q2ab"; _metrics_dirpath := "/metrics";
          _log_dirpath := Some "/logs"; _artifacts_dirpath := Some "/artifacts";
          _metrics_fn := Some DefaultParseMetrics; _metrics_args := ∅;
          _logfile_fn := Some DefaultParseLogfile; _logfile_args := ∅;
          _artifacts_fn := Some DefaultParseArtifacts; _artifacts_args := ∅ |};
     _proj_name := Some "proj";
     _run_config := [("nodes", PInt 50); ("run", PInt 0)] |}.

Definition clashing_wrapper : RunWrapperSimple :=
  {| simple_base :=
       {| _group_id := "k3x9q2ab"; _metrics_dirpath := "/out";
          _log_dirpath := None; _artifacts_dirpath := Some "/out";
          _metrics_fn := Some DefaultParseMetrics; _metrics_args := ∅;
          _logfile_fn := Some DefaultParseLogfile; _logfile_args := ∅;
          _artifacts_fn := Some DefaultParseArtifacts; _artifacts_args := ∅ |};
     _proj_name := Some "proj";
     _run_config := [("nodes", PInt 50); ("run", PInt 0)] |}.

(** A record cut to the pairs that [zip] forms of its two sequences. *)
Definition truncated (r : MetricRecord) : MetricRecord :=
  {| mtype := mtype r; metric_name := metric_name r;
     x_values := take (length (y_values r)) (x_values r);
     y_values := take (length (x_values r)) (y_values r);
     x_axis := x_axis r; y_axis := y_axis r |}.

(** The paths uploaded as artifacts in a trace, in order. *)
Definition uploads (es : list event) : list string :=
  omap (λ e, match e with WandbLogArtifact _ _ _ path => Some path | _ => None end) es.

Definition not_upload (e : event) : Prop :=
  match e with WandbLogArtifact _ _ _ _ => False | _ => True end.

Definition log_or_print (e : event) : Prop :=
  match e with WandbLog _ _ _ _ | Print _ => True | _ => False end.

(** A configuration whose log files are to be parsed by a routine that the
    table does not hold. *)
Definition setup_with_tail : parsing_setup :=
  {| ps_metrics := Some {| method := None; args := None |};
     ps_logfile := Some {| method := Some "tail"; args := None |};
     ps_artifacts := Some {| method := None; args := None |} |}.
Definition config_with_tail : config_doc :=
  {| parsing_setup_of := Some setup_with_tail; run_setup_of := None; params := [] |}.




(** A computation that leaves the aggregation buffer alone and emits no
    aggregate of [n]. *)
Definition quiet (n : string) {A} (m : M A) : Prop :=
  ∀ w w' r, m w = (w', r) →
    metrics_storage w' = metrics_storage w ∧
    ∃ es, events w' = events w ++ es ∧ aggregates_emitted n es = 0.





(** The events of [w'] that came after those of [w]. *)
Definition events_since (w w' : world) : list event :=
  drop (length (events w)) (events w').

End Cover.

(** * Properties *)

Import Metrics Parse Runner Tracker Spec.

(** ** The effect monad *)

Lemma bind_ok {A B} (m : M A) (k : A → M B) w w' a :
  m w = (w', Ok a) → bind m k w = k a w'.
Proof. intros H. unfold bind. by rewrite H. Qed.

Lemma bind_raised {A B} (m : M A) (k : A → M B) w w' e :
  m w = (w', Raised e) → bind m k w = (w', Raised e).
Proof. intros H. unfold bind. by rewrite H. Qed.

Lemma bind_inv_ok {A B} (m : M A) (k : A → M B) w w' b :
  bind m k w = (w', Ok b) → ∃ w1 a, m w = (w1, Ok a) ∧ k a w1 = (w', Ok b).
Proof.
  unfold bind. destruct (m w) as [w1 [a|e]]; [eauto | discriminate].
Qed.

Lemma for_each_app {A} (l1 l2 : list A) (body : A → M unit) w :
  for_each (l1 ++ l2) body w = (for_each l1 body ;;; for_each l2 body) w.
Proof.
  revert w. induction l1 as [|x l1 IH]; intros w; simpl.
  - reflexivity.
  - unfold bind in *. destruct (body x w) as [w1 [[]|e]]; [apply IH | reflexivity].
Qed.

Lemma add_events_nil w : add_events [] w = w.
Proof. destruct w. unfold add_events. simpl. by rewrite app_nil_r. Qed.

Lemma add_events_app es1 es2 w : add_events es2 (add_events es1 w) = add_events (es1 ++ es2) w.
Proof. unfold add_events. simpl. by rewrite app_assoc. Qed.

Lemma add_event_events e w : add_event e w = add_events [e] w.
Proof. reflexivity. Qed.

(** ** The aggregator: what a flush writes *)

Lemma log_sizes_spec run name items st w :
  log_sizes run name items st w =
    (add_events (at_event run name <$> items) w,
     Ok {| acc_sum := foldl fadd (acc_sum st) items.*2;
           acc_count := acc_count st + length items;
           acc_xs := acc_xs st ++ items.*1;
           acc_ys := acc_ys st ++ items.*2 |}).
Proof.
  revert st w. induction items as [|[x y] items IH]; intros st w; simpl.
  - rewrite add_events_nil, !app_nil_r, Nat.add_0_r. by destruct st.
  - unfold bind, emit. rewrite IH, add_event_events, add_events_app. simpl.
    rewrite <- !app_assoc. simpl. do 3 f_equal. lia.
Qed.

Lemma aggregate_and_log_nonempty run m args ml w :
  reduce (collect ml) ≠ [] →
  aggregate_and_log run m args ml w =
    (add_events (flush_events run m args (reduce (collect ml))) w, Ok tt).
Proof.
  intros Hne. unfold aggregate_and_log, flush_events.
  erewrite bind_ok by apply log_sizes_spec. simpl.
  destruct (reduce (collect ml)) as [|kv items] eqn:Hitems; [done|].
  case_decide as Hc; [simpl in Hc; lia|].
  unfold bind, ret, emit, series_events. simpl.
  rewrite !add_event_events, !add_events_app.
  case_decide; rewrite ?add_event_events, ?add_events_app, ?app_nil_r;
    rewrite <- ?app_assoc; reflexivity.
Qed.

Lemma aggregate_and_log_empty run m args ml w :
  reduce (collect ml) = [] →
  aggregate_and_log run m args ml w = (w, Raised ZeroDivisionError).
Proof.
  intros He. unfold aggregate_and_log.
  erewrite bind_ok by apply log_sizes_spec. rewrite He. simpl.
  by rewrite add_events_nil.
Qed.

(** ** Grouping by x *)

Lemma first_seen_snoc l x :
  first_seen (l ++ [x]) =
    if decide (x ∈ first_seen l) then first_seen l else first_seen l ++ [x].
Proof. unfold first_seen. by rewrite foldl_app. Qed.

Lemma elem_of_first_seen l x : x ∈ first_seen l ↔ x ∈ l.
Proof.
  induction l as [|y l IH] using rev_ind.
  - reflexivity.
  - rewrite first_seen_snoc. case_decide as Hy.
    + rewrite elem_of_app, list_elem_of_singleton, <- IH.
      split; [by left | by intros [?| ->]].
    + rewrite !elem_of_app, IH. reflexivity.
Qed.

Lemma NoDup_first_seen l : NoDup (first_seen l).
Proof.
  induction l as [|y l IH] using rev_ind.
  - constructor.
  - rewrite first_seen_snoc. case_decide as Hy; [done|].
    apply NoDup_app. split_and!; [done | | apply NoDup_singleton].
    intros z Hz Hz'. apply list_elem_of_singleton in Hz'. by subst.
Qed.

Lemma samples_at_snoc x ps p :
  samples_at x (ps ++ [p]) = samples_at x ps ++ (if decide (p.1 = x) then [p.2] else []).
Proof.
  unfold samples_at. rewrite filter_app, fmap_app. f_equal.
  rewrite filter_cons, filter_nil. by case_decide.
Qed.

Lemma samples_at_not_elem x ps : x ∉ ps.*1 → samples_at x ps = [].
Proof.
  unfold samples_at. induction ps as [|p ps IH]; [done|].
  rewrite fmap_cons, not_elem_of_cons. intros [Hne Hnin].
  rewrite filter_cons. case_decide; [congruence | by apply IH].
Qed.


Lemma aggregate_add_keyed (f : Z → list Q) keys x y :
  NoDup keys →
  aggregate_add ((λ k, (k, f k)) <$> keys) x y =
    if decide (x ∈ keys)
    then (λ k, (k, if decide (k = x) then f k ++ [y] else f k)) <$> keys
    else ((λ k, (k, f k)) <$> keys) ++ [(x, [y])].
Proof.
  induction keys as [|k keys IH]; intros Hnd.
  - destruct (decide (x ∈ [])) as [Hin|_]; [by apply elem_of_nil in Hin | done].
  - apply NoDup_cons in Hnd as [Hk Hnd]. rewrite fmap_cons. cbn [aggregate_add].
    destruct (decide (k = x)) as [->|Hkx].
    + destruct (decide (x ∈ x :: keys)) as [_|Hn]; [|destruct Hn; apply list_elem_of_here].
      rewrite fmap_cons. rewrite decide_True by done. f_equal.
      apply list_fmap_ext. intros i k' Hk'. apply list_elem_of_lookup_2 in Hk'.
      rewrite decide_False; [done | congruence].
    + rewrite IH by done.
      destruct (decide (x ∈ keys)) as [Hin|Hnin].
      * destruct (decide (x ∈ k :: keys)) as [_|Hn];
          [|destruct Hn; by apply list_elem_of_further].
        rewrite fmap_cons. by rewrite decide_False by done.
      * destruct (decide (x ∈ k :: keys)) as [Hn|_]; [|done].
        apply elem_of_cons in Hn as [->|Hn]; done.
Qed.

Lemma collect_pooled ml agg :
  fold_left add_record ml agg =
    fold_left (λ a p, aggregate_add a p.1 p.2) (pooled ml) agg.
Proof.
  revert agg. induction ml as [|m ml IH]; intros agg; [done|].
  unfold pooled. simpl. rewrite fold_left_app. apply IH.
Qed.

Lemma grouped_snoc ps x y :
  (λ k, (k, samples_at k (ps ++ [(x, y)]))) <$> first_seen (ps ++ [(x, y)]).*1 =
    aggregate_add ((λ k, (k, samples_at k ps)) <$> first_seen ps.*1) x y.
Proof.
  rewrite aggregate_add_keyed by apply NoDup_first_seen.
  rewrite fmap_app. simpl. rewrite first_seen_snoc.
  destruct (decide (x ∈ first_seen ps.*1)) as [Hin|Hnin].
  - apply list_fmap_ext. intros i k Hk. rewrite samples_at_snoc. simpl.
    f_equal. destruct (decide (x = k)), (decide (k = x)); try congruence.
    by rewrite app_nil_r.
  - rewrite fmap_app. simpl. f_equal.
    + apply list_fmap_ext. intros i k Hk. apply list_elem_of_lookup_2 in Hk.
      rewrite samples_at_snoc. simpl. rewrite decide_False by congruence.
      by rewrite app_nil_r.
    + rewrite samples_at_snoc. simpl. rewrite decide_True by done.
      rewrite samples_at_not_elem; [done|]. by rewrite <- elem_of_first_seen.
Qed.

Lemma group_spec ps :
  fold_left (λ a p, aggregate_add a p.1 p.2) ps [] =
    (λ k, (k, samples_at k ps)) <$> first_seen ps.*1.
Proof.
  induction ps as [|[x y] ps IH] using rev_ind; [done|].
  by rewrite fold_left_app, IH, grouped_snoc.
Qed.

Lemma reduce_collect ml : reduce (collect ml) = per_x_means ml.
Proof.
  unfold reduce, collect, per_x_means.
  rewrite collect_pooled, group_spec, <- list_fmap_compose. done.
Qed.

Lemma per_x_means_nil ml : per_x_means ml = [] ↔ pooled ml = [].
Proof.
  unfold per_x_means. split.
  - intros H. apply fmap_nil_inv in H.
    destruct (pooled ml) as [|p ps]; [done|]. exfalso.
    assert (p.1 ∈ first_seen (p :: ps).*1) as Hin
      by (apply elem_of_first_seen; simpl; apply list_elem_of_here).
    rewrite H in Hin. by apply elem_of_nil in Hin.
  - by intros ->.
Qed.

(** ** The aggregator: buffering and flushing *)

Lemma with_storage_idem s1 s2 w : with_storage s2 (with_storage s1 w) = with_storage s2 w.
Proof. reflexivity. Qed.

Lemma with_storage_same w : with_storage (metrics_storage w) w = w.
Proof. by destruct w. Qed.

Lemma append_to_buffer (st : gmap string (list MetricRecord)) name r :
  alter (λ l, l ++ [r]) name
    (match st !! name with None => <[name := []]> st | Some _ => st end) =
  <[name := default [] (st !! name) ++ [r]]> st.
Proof.
  destruct (st !! name) as [l|] eqn:Hl; simpl.
  - by rewrite (alter_alt_Some _ _ _ l).
  - by rewrite alter_insert_eq.
Qed.

Lemma network_size_buffers run r args w :
  network_size run r args false w =
    (with_storage (<[metric_name r := buffered (metric_name r) w ++ [r]]> (metrics_storage w)) w,
     Ok tt).
Proof.
  unfold network_size, bind, get_storage, set_storage, ret, buffered. simpl.
  by rewrite append_to_buffer.
Qed.

Lemma network_size_flushes run r args w :
  network_size run r args true w =
    aggregate_and_log run r args (buffered (metric_name r) w ++ [r])
      (with_storage (delete (metric_name r) (metrics_storage w)) w).
Proof.
  unfold network_size, bind, get_storage, set_storage, ret, buffered. simpl.
  rewrite append_to_buffer, lookup_insert_eq. simpl. by rewrite delete_insert_eq.
Qed.

Lemma for_each_buffers run args name rs w :
  Forall (λ r, metric_name r = name) rs →
  ∃ s, for_each rs (λ r, network_size run r args false) w = (with_storage s w, Ok tt)
       ∧ default [] (s !! name) = buffered name w ++ rs
       ∧ delete name s = delete name (metrics_storage w).
Proof.
  revert w. induction rs as [|r rs IH]; intros w Hall.
  - exists (metrics_storage w). simpl. unfold ret, buffered.
    by rewrite with_storage_same, app_nil_r.
  - apply Forall_cons in Hall as [Hr Hall]. simpl.
    erewrite bind_ok by apply network_size_buffers. rewrite Hr.
    destruct (IH (with_storage (<[name := buffered name w ++ [r]]> (metrics_storage w)) w) Hall)
      as (s & Hrun & Hbuf & Hdel).
    exists s. rewrite Hrun, with_storage_idem. split_and!; [done | |].
    + rewrite Hbuf. unfold buffered. simpl. rewrite lookup_insert_eq. simpl.
      by rewrite <- app_assoc.
    + rewrite Hdel. simpl. by rewrite delete_insert_eq.
Qed.

(** A sequence with the terminal flag on its last record only runs the
    reduction once, over everything buffered for the name. *)
Lemma ingest_sequence_flushes run args name rs r w :
  Forall (λ r', metric_name r' = name) (rs ++ [r]) →
  ingest_sequence run args rs r w =
    aggregate_and_log run r args (buffered name w ++ rs ++ [r])
      (with_storage (delete name (metrics_storage w)) w).
Proof.
  intros Hall. apply Forall_app in Hall as [Hrs Hr].
  rewrite Forall_singleton in Hr.
  destruct (for_each_buffers run args name rs w Hrs) as (s & Hrun & Hbuf & Hdel).
  unfold ingest_sequence. erewrite bind_ok by exact Hrun. cbv beta.
  rewrite network_size_flushes, Hr. unfold buffered at 1. simpl.
  by rewrite Hbuf, Hdel, with_storage_idem, <- app_assoc.
Qed.

(** ** Counting emitted aggregates *)

Lemma string_app_inj (s a b : string) : s +:+ a = s +:+ b → a = b.
Proof. induction s as [|c s IH]; simpl; [done|]. intros [= H]. by apply IH. Qed.

Lemma at_event_not_avg run name kv : is_avg_log name (at_event run name kv) = false.
Proof.
  unfold is_avg_log, at_event. apply bool_decide_eq_false.
  intros Heq. apply string_app_inj in Heq. discriminate Heq.
Qed.

Lemma avg_event_is_avg run name v : is_avg_log name (avg_event run name v) = true.
Proof. unfold is_avg_log, avg_event. by apply bool_decide_eq_true. Qed.

Lemma series_not_avg run m args items e :
  e ∈ series_events run m args items → is_avg_log (metric_name m) e = false.
Proof.
  unfold series_events. case_decide; [|by intros ?%elem_of_nil].
  intros ->%list_elem_of_singleton. unfold is_avg_log. apply bool_decide_eq_false.
  intros Heq. apply string_app_inj in Heq. discriminate Heq.
Qed.

Lemma aggregates_emitted_app name es1 es2 :
  aggregates_emitted name (es1 ++ es2) =
    aggregates_emitted name es1 + aggregates_emitted name es2.
Proof. unfold aggregates_emitted. by rewrite filter_app, length_app. Qed.

Lemma aggregates_emitted_none name es :
  (∀ e, e ∈ es → is_avg_log name e = false) → aggregates_emitted name es = 0.
Proof.
  unfold aggregates_emitted. induction es as [|e es IH]; intros H; [done|].
  rewrite filter_cons. rewrite decide_False.
  - apply IH. intros e' He'. apply H. by apply list_elem_of_further.
  - rewrite H by apply list_elem_of_here. done.
Qed.

Lemma flush_emits_one_aggregate run m args items :
  aggregates_emitted (metric_name m) (flush_events run m args items) = 1.
Proof.
  unfold flush_events. rewrite !aggregates_emitted_app.
  rewrite (aggregates_emitted_none _ (_ <$> _)).
  - rewrite (aggregates_emitted_none _ (series_events _ _ _ _)) by apply series_not_avg.
    unfold aggregates_emitted. rewrite filter_cons, filter_nil.
    by rewrite decide_True by apply avg_event_is_avg.
  - intros e (kv & -> & _)%list_elem_of_fmap. apply at_event_not_avg.
Qed.

(** ** Properties of the aggregator *)

(** C1 (sequences holding a sample). For every sequence of metric records
    that share one metric name and carry the terminal flag on the last record
    only, provided the records of the sequence together with those already
    buffered for the name hold at least one (x, y) sample pair: the sequence
    completes, exactly one aggregate is emitted, the buffer entry of the name
    is removed at flush time, and a further terminal record for the name is
    aggregated on its own. *)
Theorem C1_single_flush run args name rs r w :
  Forall (λ r', metric_name r' = name) (rs ++ [r]) →
  pooled (buffered name w ++ rs ++ [r]) ≠ [] →
  ∃ w' new,
    ingest_sequence run args rs r w = (w', Ok tt) ∧
    events w' = events w ++ new ∧
    aggregates_emitted name new = 1 ∧
    metrics_storage w' !! name = None ∧
    ∀ r2, metric_name r2 = name →
      network_size run r2 args true w' = aggregate_and_log run r2 args [r2] w'.
Proof.
  intros Hall Hpairs.
  assert (metric_name r = name) as Hr.
  { apply Forall_app in Hall as [_ Hr]. by rewrite Forall_singleton in Hr. }
  rewrite (ingest_sequence_flushes run args name) by done.
  rewrite aggregate_and_log_nonempty
    by (rewrite reduce_collect; by rewrite per_x_means_nil).
  eexists _, _. split_and!; [reflexivity | reflexivity | | |].
  - rewrite <- Hr. apply flush_emits_one_aggregate.
  - simpl. apply lookup_delete_eq.
  - intros r2 Hr2. rewrite network_size_flushes, Hr2. unfold buffered. simpl.
    rewrite lookup_delete_eq, delete_delete_eq. reflexivity.
Qed.

Lemma C1_single_flush_witness :
  Forall (λ r', metric_name r' = "pdr") ([Sample.rec1] ++ [Sample.rec2]) ∧
  pooled (buffered "pdr" Sample.w0 ++ [Sample.rec1] ++ [Sample.rec2]) ≠ [] ∧
  ∃ w' new,
    ingest_sequence Sample.run0 ∅ [Sample.rec1] Sample.rec2 Sample.w0 = (w', Ok tt) ∧
    events w' = events Sample.w0 ++ new ∧
    aggregates_emitted "pdr" new = 1 ∧
    metrics_storage w' !! "pdr" = None ∧
    ∀ r2, metric_name r2 = "pdr" →
      network_size Sample.run0 r2 ∅ true w' = aggregate_and_log Sample.run0 r2 ∅ [r2] w'.
Proof.
  assert (Forall (λ r', metric_name r' = "pdr") ([Sample.rec1] ++ [Sample.rec2])) as H1
    by (repeat constructor).
  assert (pooled (buffered "pdr" Sample.w0 ++ [Sample.rec1] ++ [Sample.rec2]) ≠ []) as H2
    by (vm_compute; discriminate).
  split; [exact H1 | split; [exact H2 |]].
  exact (C1_single_flush Sample.run0 ∅ "pdr" [Sample.rec1] Sample.rec2 Sample.w0 H1 H2).
Defined.

(** A sequence without any sample pair: the one terminal record with empty
    sequences raises [ZeroDivisionError], and no aggregate is emitted. *)
Lemma C1_no_aggregate_without_samples :
  Forall (λ r', metric_name r' = "pdr") ([] ++ [Sample.rec_empty]) ∧
  (ingest_sequence Sample.run0 ∅ [] Sample.rec_empty Sample.w0).2 = Raised ZeroDivisionError ∧
  aggregates_emitted "pdr"
    (events (ingest_sequence Sample.run0 ∅ [] Sample.rec_empty Sample.w0).1) = 0.
Proof. split; [repeat constructor | split; reflexivity]. Qed.

Lemma length_first_seen l : length (first_seen l) = size (list_to_set l : gset Z).
Proof.
  rewrite <- (size_list_to_set (C := gset Z)) by apply NoDup_first_seen.
  f_equal. apply set_eq. intros x.
  by rewrite !elem_of_list_to_set, elem_of_first_seen.
Qed.

(** C10. The division that yields ["<metricName>_avg"] is unguarded; its
    divisor is the number of distinct x values of the flushed records. When
    those records hold at least one (x, y) pair the flush completes; a
    terminal record with empty x- and y-sequences and no pairs buffered
    before it makes the divisor zero and raises [ZeroDivisionError]. *)
Theorem C10_average_divisor run m args ml w :
  (∃ w1 st,
     log_sizes run (metric_name m) (reduce (collect ml)) avg_init w = (w1, Ok st) ∧
     acc_count st = size (list_to_set (pooled ml).*1 : gset Z) ∧
     (aggregate_and_log run m args ml w).2 =
       if decide (acc_count st = 0) then Raised ZeroDivisionError else Ok tt) ∧
  (pooled ml ≠ [] → (aggregate_and_log run m args ml w).2 = Ok tt) ∧
  (∀ r, x_values r = [] → y_values r = [] →
        pooled (buffered (metric_name r) w) = [] →
        (network_size run r args true w).2 = Raised ZeroDivisionError).
Proof.
  split_and!.
  - eexists _, _. split; [apply log_sizes_spec|]. cbn [acc_count avg_init].
    assert (0 + length (reduce (collect ml)) = size (list_to_set (pooled ml).*1 : gset Z))
      as Hcount.
    { rewrite reduce_collect. unfold per_x_means.
      by rewrite length_fmap, length_first_seen. }
    rewrite Hcount. split; [done|].
    destruct (decide (pooled ml = [])) as [He|Hne].
    + rewrite aggregate_and_log_empty
        by (rewrite reduce_collect; by apply per_x_means_nil).
      rewrite He. reflexivity.
    + rewrite aggregate_and_log_nonempty
        by (rewrite reduce_collect; by rewrite per_x_means_nil).
      case_decide as Hz; [|done].
      rewrite <- length_first_seen in Hz. apply length_zero_iff_nil in Hz.
      destruct Hne. apply per_x_means_nil. unfold per_x_means. by rewrite Hz.
  - intros Hne. by rewrite aggregate_and_log_nonempty
      by (rewrite reduce_collect; by rewrite per_x_means_nil).
  - intros r Hx Hy Hbuf. rewrite network_size_flushes.
    rewrite aggregate_and_log_empty; [done|].
    rewrite reduce_collect. apply per_x_means_nil.
    unfold pooled in *. rewrite bind_app, Hbuf. simpl. by rewrite Hx.
Qed.

Lemma C10_average_divisor_witness :
  pooled [Sample.rec1; Sample.rec2] ≠ [] ∧
  (aggregate_and_log Sample.run0 Sample.rec2 ∅ [Sample.rec1; Sample.rec2] Sample.w0).2 = Ok tt ∧
  pooled (buffered (metric_name Sample.rec_empty) Sample.w0) = [] ∧
  (network_size Sample.run0 Sample.rec_empty ∅ true Sample.w0).2 = Raised ZeroDivisionError.
Proof.
  assert (pooled [Sample.rec1; Sample.rec2] ≠ []) as H1 by (vm_compute; discriminate).
  assert (pooled (buffered (metric_name Sample.rec_empty) Sample.w0) = []) as H2
    by reflexivity.
  split_and!; [exact H1 | | exact H2 |].
  - exact (proj1 (proj2 (C10_average_divisor Sample.run0 Sample.rec2 ∅
                           [Sample.rec1; Sample.rec2] Sample.w0)) H1).
  - exact (proj2 (proj2 (C10_average_divisor Sample.run0 Sample.rec2 ∅
                           [Sample.rec1; Sample.rec2] Sample.w0))
             Sample.rec_empty eq_refl eq_refl H2).
Defined.

(** ** Float arithmetic up to the representation of rationals *)

#[local] Instance feq_equivalence : Equivalence feq.
Proof.
  split.
  - intros [q|]; simpl; [reflexivity | done].
  - intros [q|] [q'|]; simpl; try done; intros H; by symmetry.
  - intros [q|] [q'|] [q''|]; simpl; try done; intros H1 H2; by transitivity q'.
Qed.













(** ** The reduction as a grouped mean *)





(** ** Order of the buffered records *)










(** ** The default metrics parser *)



(** ** The parsing dispatch *)

Lemma for_each_enumerated {A} (f : bool → A → M unit) (n k : nat) ds d w :
  n = k + length ds + 1 →
  for_each (imap (λ i x, (k + i, x)) (ds ++ [d]))
    (λ p, f (bool_decide (Z.of_nat p.1 = (Z.of_nat n - 1)%Z)) p.2) w =
  (for_each ds (f false) ;;; f true d) w.
Proof.
  revert k w. induction ds as [|x ds IH]; intros k w Hn; simpl in *.
  - rewrite bool_decide_eq_true_2 by lia.
    unfold bind, ret. by destruct (f true d w) as [w1 [[]|e]].
  - rewrite bool_decide_eq_false_2 by lia.
    unfold bind in *. destruct (f false x w) as [w1 [[]|e]]; [|done].
    rewrite <- (IH (S k) w1) by lia. f_equal.
    apply imap_ext. intros i y _. simpl. f_equal. lia.
Qed.

(** C4. Over a list of metrics directories the metrics routine is invoked
    once per directory, in list order, and the terminal signal it receives is
    true exactly for the last directory of the list; for a one-element list
    the only call is terminal. *)
Theorem C4_terminal_on_last_directory
    (f : WandbRun → string → gmap string pyval → bool → M unit) run args :
  (∀ w, parse_metrics_dirs run [] f args w = (w, Ok tt)) ∧
  (∀ ds d w,
     parse_metrics_dirs run (ds ++ [d]) f args w =
       (for_each ds (λ d', f run d' args false) ;;; f run d args true) w) ∧
  (∀ d w, parse_metrics_dirs run [d] f args w = (f run d args true ;;; ret tt) w) ∧
  (∀ dirs w,
     run_parse_functions run dirs [] [] (Some f) args None ∅ None ∅ w =
       (parse_metrics_dirs run dirs f args ;;; ret tt ;;; ret tt) w).
Proof.
  split_and!.
  - done.
  - intros ds d w. unfold parse_metrics_dirs, enumerate.
    rewrite <- (for_each_enumerated (λ b d', f run d' args b) (length (ds ++ [d])) 0)
      by (rewrite length_app; simpl; lia).
    done.
  - done.
  - done.
Qed.

(** ** The experiment invoker *)

Lemma fold_left_append {A B} (g : A → B) l (c : list B) :
  fold_left (λ c x, c ++ [g x]) l c = c ++ (g <$> l).
Proof.
  revert c. induction l as [|x l IH]; intros c; simpl.
  - by rewrite app_nil_r.
  - by rewrite IH, <- app_assoc.
Qed.

(** C5. The invoker passes, in this order: the metrics directory, the log
    path if present, the artifacts directory if present, the block of static
    arguments, then one [--key=value] token per configuration entry followed
    by one per extra run-scoped entry; this list is what is executed. *)
Theorem C5_argument_order E config metrics_dirpath log_filepath artifacts_dirpath
    out_of_config :
  build_cmd E config metrics_dirpath log_filepath artifacts_dirpath out_of_config =
    ["bash"; EXPERIMENT_SCRIPT E]
    ++ [metrics_dirpath]
    ++ option_list log_filepath
    ++ option_list artifacts_dirpath
    ++ [EXP_ARGS E]
    ++ (token <$> config)
    ++ (token <$> out_of_config) ∧
  ∀ w, run_single_experiment E config metrics_dirpath log_filepath artifacts_dirpath
         out_of_config w =
         (World (metrics_storage w) (paths w)
            (events w ++ [SubprocessRun
               (build_cmd E config metrics_dirpath log_filepath artifacts_dirpath
                  out_of_config)])
            (runs_made w) (S (procs_run w)) (ids_made w),
          Ok (elapsed E (procs_run w))).
Proof.
  split; [|done].
  unfold build_cmd. rewrite !fold_left_append.
  destruct log_filepath, artifacts_dirpath; simpl; by rewrite <- ?app_assoc.
Qed.

(** ** What a computation adds to the trace *)

Lemma emits_ret {A} P (a : A) : emits P (ret a).
Proof. intros w w' r [= <- <-]. exists []. by rewrite app_nil_r. Qed.

Lemma emits_raise {A} P e : emits P (raise (A := A) e).
Proof. intros w w' r [= <- <-]. exists []. by rewrite app_nil_r. Qed.

Lemma emits_emit (P : event → Prop) e : P e → emits P (emit e).
Proof. intros He w w' r [= <- <-]. exists [e]. split; [done | by constructor]. Qed.

Lemma emits_bind {A B} P (m : M A) (k : A → M B) :
  emits P m → (∀ a, emits P (k a)) → emits P (bind m k).
Proof.
  intros Hm Hk w w' r. unfold bind. destruct (m w) as [w1 [a|e]] eqn:Hmw.
  - intros Hkw. destruct (Hm _ _ _ Hmw) as (es1 & He1 & HP1).
    destruct (Hk _ _ _ _ Hkw) as (es2 & He2 & HP2).
    exists (es1 ++ es2). rewrite He2, He1, app_assoc. split; [done|].
    by apply Forall_app.
  - intros [= <- <-]. destruct (Hm _ _ _ Hmw) as (es1 & He1 & HP1). by exists es1.
Qed.

Lemma emits_for_each {A} P (l : list A) (body : A → M unit) :
  (∀ x, emits P (body x)) → emits P (for_each l body).
Proof.
  intros Hbody. induction l as [|x l IH]; simpl.
  - apply emits_ret.
  - apply emits_bind; [apply Hbody | intros _; apply IH].
Qed.

Ltac peel_string H s :=
  repeat (destruct s as [|? s]; simpl in H;
          [discriminate H | first [discriminate H | injection H as _ H]]).

Lemma at_key_not_duration name t : name +:+ "_at_" +:+ t ≠ "duration_secs".
Proof. intros H. peel_string H name. Qed.

Lemma avg_key_not_duration name : name +:+ "_avg" ≠ "duration_secs".
Proof. intros H. peel_string H name. Qed.

Lemma series_key_not_duration name : name +:+ "_series" ≠ "duration_secs".
Proof. intros H. peel_string H name. Qed.

Lemma flush_events_parse run m args items :
  Forall parse_event (flush_events run m args items).
Proof.
  unfold flush_events. rewrite !Forall_app. split_and!.
  - apply Forall_fmap, Forall_forall. intros kv _. apply at_key_not_duration.
  - constructor; [apply avg_key_not_duration | constructor].
  - unfold series_events. case_decide; [|constructor].
    constructor; [apply series_key_not_duration | constructor].
Qed.

Lemma emits_network_size run r args last : emits parse_event (network_size run r args last).
Proof.
  intros w w' res. destruct last.
  - rewrite network_size_flushes.
    destruct (decide (reduce (collect (buffered (metric_name r) w ++ [r])) = []))
      as [He|Hne].
    + rewrite aggregate_and_log_empty by done. intros [= <- <-].
      exists []. by rewrite app_nil_r.
    + rewrite aggregate_and_log_nonempty by done. intros [= <- <-].
      eexists. split; [reflexivity | apply flush_events_parse].
  - rewrite network_size_buffers. intros [= <- <-]. exists []. by rewrite app_nil_r.
Qed.

Lemma emits_default_parse_metrics E run dir args last :
  emits parse_event (default_parse_metrics E run dir args last).
Proof.
  apply emits_for_each. intros ent. unfold parse_metrics_file.
  destruct (negb (is_file ent) || negb (endswith _ _)); [apply emits_ret|].
  destruct (metric_type_handling !! _) as [[]|].
  - apply emits_network_size.
  - by apply emits_emit.
Qed.

Lemma emits_default_parse_logfile E run path args :
  emits parse_event (default_parse_logfile E run path args).
Proof.
  unfold default_parse_logfile. destruct (log_at E path).
  - apply emits_ret.
  - by apply emits_emit.
  - by apply emits_emit.
Qed.

Lemma emits_parse_outputs E self run mdirs lfiles adirs :
  emits parse_event (parse_outputs E self run mdirs lfiles adirs).
Proof.
  unfold parse_outputs, run_parse_functions.
  apply emits_bind; [|intros _; apply emits_bind; [|intros _]].
  - destruct (_metrics_fn self) as [[]|]; simpl; [|apply emits_ret].
    apply emits_for_each. intros p. apply emits_default_parse_metrics.
  - destruct (_logfile_fn self) as [[]|]; simpl; [|apply emits_ret].
    apply emits_for_each. intros p. apply emits_default_parse_logfile.
  - destruct (_artifacts_fn self) as [[]|]; simpl; [|apply emits_ret].
    apply emits_for_each. intros p. by apply emits_emit.
Qed.

Lemma parse_events_silent es :
  Forall parse_event es →
  subprocess_calls es = [] ∧ finishes es = [] ∧ duration_logs es = [].
Proof.
  induction 1 as [|e es He _ (IH1 & IH2 & IH3)]; [done|].
  unfold subprocess_calls, finishes, duration_logs in *.
  destruct e; simpl in *; try done.
  rewrite decide_False by done. done.
Qed.

Lemma dir_events_silent es :
  Forall dir_event es →
  subprocess_calls es = [] ∧ finishes es = [] ∧ duration_logs es = [].
Proof.
  induction 1 as [|e es He _ (IH1 & IH2 & IH3)]; [done|].
  unfold subprocess_calls, finishes, duration_logs in *.
  destruct e; simpl in *; done.
Qed.

(** ** The sweep run wrapper *)

Lemma makedirs_ok path w w' :
  makedirs path w = (w', Ok tt) →
  events w' = events w ++ [Makedirs path] ∧ procs_run w' = procs_run w.
Proof. unfold makedirs. case_decide; [done|]. by intros [= <-]. Qed.

Lemma make_run_dirs_ok self run suffix w w' dirs :
  make_run_dirs self run suffix w = (w', Ok dirs) →
  dirs = run_dirs self run suffix ∧
  procs_run w' = procs_run w ∧
  ∃ es, events w' = events w ++ es ∧ Forall dir_event es.
Proof.
  unfold make_run_dirs. intros H.
  apply bind_inv_ok in H as (w1 & [] & Hm & H).
  apply makedirs_ok in Hm as [Hev1 Hp1].
  apply bind_inv_ok in H as (w2 & [] & Ha & [= <- <-]).
  split; [done|].
  destruct (_artifacts_dirpath self) as [d|]; simpl in Ha.
  - apply makedirs_ok in Ha as [Hev2 Hp2]. split; [congruence|].
    eexists. rewrite Hev2, Hev1, <- app_assoc. split; [done|].
    by repeat constructor.
  - injection Ha as <-. split; [done|].
    eexists. split; [done|]. by repeat constructor.
Qed.

Lemma sweep_iteration_ok E self run acc curr_run w w' acc' :
  sweep_iteration E self run acc curr_run w = (w', Ok acc') →
  procs_run w' = S (procs_run w) ∧
  durations acc' = durations acc ++ [elapsed E (procs_run w)] ∧
  metrics_dirs acc' = metrics_dirs acc ++ [sweep_metrics_dir self run curr_run] ∧
  ∃ es, events w' = events w ++ es ++ [SubprocessRun (sweep_cmd E self run curr_run)] ∧
        Forall dir_event es.
Proof.
  unfold sweep_iteration. intros H.
  apply bind_inv_ok in H as (w1 & dirs & Hd & H).
  apply make_run_dirs_ok in Hd as (-> & Hp & es & Hev & Hes).
  unfold run_dirs in H. simpl in H. injection H as <- <-. simpl.
  rewrite Hp. split_and!; [done | done | done |].
  exists es. by rewrite Hev, <- app_assoc.
Qed.

Lemma sweep_loop_ok E self run runs acc w w' acc' :
  sweep_loop E self run runs acc w = (w', Ok acc') →
  durations acc' = durations acc ++ (elapsed E <$> seq (procs_run w) (length runs)) ∧
  metrics_dirs acc' = metrics_dirs acc ++ (sweep_metrics_dir self run <$> runs) ∧
  ∃ es, events w' = events w ++ es ∧
        subprocess_calls es = sweep_cmd E self run <$> runs ∧
        finishes es = [] ∧ duration_logs es = [].
Proof.
  revert acc w. induction runs as [|i runs IH]; intros acc w; simpl.
  - intros [= <- <-]. rewrite !app_nil_r. split_and!; [done | done |].
    exists []. by rewrite app_nil_r.
  - intros H. apply bind_inv_ok in H as (w1 & acc1 & Hit & H).
    apply sweep_iteration_ok in Hit as (Hp & Hdur & Hdirs & es1 & Hev1 & Hes1).
    apply IH in H as (Hdur' & Hdirs' & es2 & Hev2 & Hcalls & Hfin & Hlogs).
    rewrite Hdur', Hdur, Hdirs', Hdirs, Hp, <- !app_assoc. split_and!; [done | done |].
    exists ((es1 ++ [SubprocessRun (sweep_cmd E self run i)]) ++ es2).
    rewrite Hev2, Hev1, <- !app_assoc. split; [done|].
    apply dir_events_silent in Hes1 as (Hc1 & Hf1 & Hl1).
    unfold subprocess_calls, finishes, duration_logs in *.
    rewrite !omap_app, Hc1, Hf1, Hl1, Hcalls, Hfin, Hlogs. done.
Qed.








(** ** The batch scheduler *)

Lemma generated_id_not_auto E n :
  (∀ k, String.length (generate_id E k) = 8) → generate_id E n ≠ "auto".
Proof. intros Hlen Heq. specialize (Hlen n). by rewrite Heq in Hlen. Qed.

Lemma submit_runs_fixed E proj par (base : string → RunWrapperBase) g runs st w :
  (∀ g', _group_id (base g') = g') →
  bs_group_id st = Some g → g ≠ "auto" →
  ∃ w' st' new,
    submit_runs E proj par base runs st w = (w', Ok st') ∧
    ids_made w' = ids_made w ∧
    bs_tasks st' = bs_tasks st ++ new ∧
    length new = length runs ∧
    Forall (λ t, _group_id (simple_base t) = g ∧ _proj_name t = Some proj) new.
Proof.
  intros Hbase. revert st w. induction runs as [|i runs IH]; intros st w Hg Hauto; simpl.
  - exists w, st, []. by rewrite app_nil_r.
  - unfold bind at 1. unfold submit_run. rewrite Hg.
    rewrite bool_decide_eq_false_2 by done.
    unfold bind, ret, emit. simpl.
    destruct (bool_decide (1 < par)%Z); simpl.
    + edestruct IH as (w' & st' & new & -> & Hids & Htasks & Hlen & Hall); [done..|].
      eexists _, _, (_ :: new). split; [done|]. simpl in *.
      rewrite Htasks, <- app_assoc. split_and!; [done | done | by rewrite Hlen |].
      constructor; [split; [apply Hbase | done] | done].
    + edestruct IH as (w' & st' & new & -> & Hids & Htasks & Hlen & Hall); [done..|].
      eexists _, _, (_ :: new). split; [done|]. simpl in *.
      rewrite Htasks, <- app_assoc. split_and!; [done | done | by rewrite Hlen |].
      constructor; [split; [apply Hbase | done] | done].
Qed.

(** C7. In a simple batch with group-by absent or ["auto"], one GroupID is
    generated and every run of the batch receives it; with any other group-by
    value no GroupID is generated and every run receives the configured
    value unchanged. The GroupID a run receives is the group under which its
    tracked run is created. Generated identifiers are 8 characters long. *)
Theorem C7_group_id E proj rs cfg mdir ldir adir mf ma lf la af aa w :
  (∀ k, String.length (generate_id E k) = 8) →
  (1 ≤ default 1%Z (parallel rs))%Z →
  ∃ w' tasks,
    perform_single_experiment E proj rs cfg mdir ldir adir mf ma lf la af aa w
      = (w', Ok tasks) ∧
    length tasks =
      Z.to_nat (default 1%Z (num_runs_limit rs) - default 0%Z (num_runs_start rs)) ∧
    (group_by rs = None ∨ group_by rs = Some "auto" →
       ids_made w' = ids_made w + (if tasks is [] then 0 else 1) ∧
       ∀ t, t ∈ tasks → _group_id (simple_base t) = generate_id E (ids_made w)) ∧
    (∀ g, group_by rs = Some g → g ≠ "auto" →
       ids_made w' = ids_made w ∧
       ∀ t, t ∈ tasks → _group_id (simple_base t) = g) ∧
    (∀ t wk, t ∈ tasks →
       events (simple_create_run E t wk).1 =
         events wk ++ [WandbInit (Some proj) (Some (_group_id (simple_base t)))
                         (Some (_run_config t))]).
Proof.
  intros Hlen Hpar. unfold perform_single_experiment.
  rewrite bool_decide_eq_false_2 by lia.
  set (base := λ g, new_base g mdir ldir adir mf ma lf la af aa).
  assert (∀ g', _group_id (base g') = g') as Hbase by done.
  assert (length (range_from (default 0%Z (num_runs_start rs))
                             (default 1%Z (num_runs_limit rs))) =
          Z.to_nat (default 1%Z (num_runs_limit rs) - default 0%Z (num_runs_start rs)))
    as Hcount by (unfold range_from; by rewrite length_fmap, length_seq).
  destruct (range_from _ _) as [|i runs] eqn:Hruns.
  { eexists _, []. simpl. unfold bind, ret. simpl. split; [done|].
    split_and!; [done | | | ].
    - intros _. split; [lia | by intros t ?%elem_of_nil].
    - intros g _ _. split; [done | by intros t ?%elem_of_nil].
    - by intros t wk ?%elem_of_nil. }
  set (g := match group_by rs with
            | None => generate_id E (ids_made w)
            | Some s => if bool_decide (s = "auto") then generate_id E (ids_made w) else s
            end).
  assert (g ≠ "auto") as Hg.
  { unfold g. destruct (group_by rs) as [s|]; [|by apply generated_id_not_auto].
    case_bool_decide; [by apply generated_id_not_auto | done]. }
  set (w1 := match group_by rs with
             | None => (wandb_generate_id E w).1
             | Some s => if bool_decide (s = "auto") then (wandb_generate_id E w).1 else w
             end).
  set (w2 := if bool_decide (1 < default 1%Z (parallel rs))%Z
             then add_event (Sleep 0.5) w1 else w1).
  set (st1 := {| bs_group_id := Some g;
                 bs_config := dict_set cfg "run" (PInt i);
                 bs_tasks := [{| simple_base := base g; _proj_name := Some proj;
                                 _run_config := dict_set cfg "run" (PInt i) |}] |}).
  assert (submit_run E proj (default 1%Z (parallel rs)) base
            {| bs_group_id := group_by rs; bs_config := cfg; bs_tasks := [] |} i w
          = (w2, Ok st1)) as Hfirst.
  { unfold submit_run, w2, w1, st1, g. simpl.
    destruct (group_by rs) as [s|]; [destruct (bool_decide (s = "auto"))|];
      unfold bind, ret, emit, wandb_generate_id; simpl;
      by destruct (bool_decide (1 < default 1%Z (parallel rs))%Z). }
  destruct (submit_runs_fixed E proj (default 1%Z (parallel rs)) base g runs st1 w2
              Hbase eq_refl Hg)
    as (w' & st' & new & Hrest & Hids & Htasks & Hnew & Hall).
  exists w', (bs_tasks st'). simpl. unfold bind at 1.
  rewrite (bind_ok _ _ _ _ _ Hfirst), Hrest. split; [done|].
  assert (ids_made w2 = ids_made w1) as Hw2
    by (unfold w2; by destruct (bool_decide _)).
  assert (∀ t, t ∈ bs_tasks st' →
               _group_id (simple_base t) = g ∧ _proj_name t = Some proj) as Htask.
  { intros t. rewrite Htasks. simpl. rewrite elem_of_cons. intros [->|Ht]; [done|].
    by apply (proj1 (Forall_forall _ _) Hall). }
  assert (bs_tasks st' ≠ []) as Hne' by (by rewrite Htasks).
  split_and!.
  - rewrite Htasks, length_app, Hnew. simpl in *. lia.
  - intros Hauto. split.
    + rewrite Hids, Hw2. destruct (bs_tasks st'); [done|]. unfold w1.
      destruct Hauto as [->| ->]; simpl; lia.
    + intros t Ht. apply Htask in Ht as [-> _].
      unfold g. by destruct Hauto as [->| ->].
  - intros s Hs Hne. split.
    + rewrite Hids, Hw2. unfold w1. rewrite Hs. by rewrite bool_decide_eq_false_2.
    + intros t Ht. apply Htask in Ht as [-> _].
      unfold g. rewrite Hs. by rewrite bool_decide_eq_false_2.
  - intros t wk Ht. apply Htask in Ht as [_ Hp].
    unfold simple_create_run, wandb_init. simpl. by rewrite Hp.
Qed.

Lemma C7_group_id_witness :
  (∀ k, String.length (generate_id Sample.env0 k) = 8) ∧
  (1 ≤ default 1%Z (parallel Sample.batch_setup))%Z ∧
  ∃ w' tasks,
    perform_single_experiment Sample.env0 "proj" Sample.batch_setup [("nodes", PInt 50)]
      "/metrics" None None (Some DefaultParseMetrics) ∅ (Some DefaultParseLogfile) ∅
      (Some DefaultParseArtifacts) ∅ Sample.w0 = (w', Ok tasks) ∧
    length tasks = 4 ∧
    ids_made w' = 1 ∧
    ∀ t, t ∈ tasks → _group_id (simple_base t) = "k3x9q2ab".
Proof.
  assert (∀ k, String.length (generate_id Sample.env0 k) = 8) as H1 by (intros k; reflexivity).
  assert (1 ≤ default 1%Z (parallel Sample.batch_setup))%Z as H2 by (simpl; lia).
  split; [exact H1 | split; [exact H2|]].
  destruct (C7_group_id Sample.env0 "proj" Sample.batch_setup [("nodes", PInt 50)]
              "/metrics" None None (Some DefaultParseMetrics) ∅ (Some DefaultParseLogfile) ∅
              (Some DefaultParseArtifacts) ∅ Sample.w0 H1 H2)
    as (w' & tasks & Hrun & Hlen & Hauto & _ & _).
  destruct (Hauto (or_intror eq_refl)) as [Hids Hall].
  exists w', tasks. split_and!; [exact Hrun | exact Hlen | | exact Hall].
  rewrite Hids. destruct tasks; [discriminate Hlen | reflexivity].
Defined.

(** ** Resolution of the parsing routines *)

Lemma check_parsing_functions_pure config w : (check_parsing_functions config w).1 = w.
Proof.
  unfold check_parsing_functions. repeat case_decide; reflexivity.
Qed.

Lemma main_fails_fast E proj mdir ldir adir config sweep w e :
  (check_parsing_functions (default empty_config config) w).2 = Raised e →
  main E proj mdir ldir adir config sweep w = (w, Raised e).
Proof.
  intros H. unfold main. apply bind_raised.
  pose proof (check_parsing_functions_pure (default empty_config config) w) as Hw.
  destruct (check_parsing_functions _ w) as [w1 r]. simpl in *. by subst.
Qed.

(** C6 (missing sections). Each table holds the name ["default"], and a
    category section without a method resolves to it; but when no
    configuration is given at all, or the section of a category is missing,
    [main] raises "parsing function not found" rather than falling back to
    ["default"]. The error leaves the state untouched: it is raised before
    any run. *)
Theorem C6_missing_section_raises E proj mdir ldir adir sweep w :
  metric_dict !! "default" = Some DefaultParseMetrics ∧
  logfile_dict !! "default" = Some DefaultParseLogfile ∧
  artifact_dict !! "default" = Some DefaultParseArtifacts ∧
  (∀ a1 a2 a3 rs params,
     (check_parsing_functions
        {| parsing_setup_of :=
             Some {| ps_metrics := Some {| method := None; args := a1 |};
                     ps_logfile := Some {| method := None; args := a2 |};
                     ps_artifacts := Some {| method := None; args := a3 |} |};
           run_setup_of := rs; params := params |} w).2 =
     Ok {| metric_fn := Some DefaultParseMetrics; metric_args := default ∅ a1;
           logfile_fn := Some DefaultParseLogfile; logfile_args := default ∅ a2;
           artifact_fn := Some DefaultParseArtifacts; artifact_args := default ∅ a3 |}) ∧
  main E proj mdir ldir adir None sweep w =
    (w, Raised (NotImplementedError "Metric parsing function not found")) ∧
  (∀ c1 c3 rs params,
     main E proj mdir ldir adir
       (Some {| parsing_setup_of :=
                  Some {| ps_metrics := Some {| method := Some "default"; args := c1 |};
                          ps_logfile := None;
                          ps_artifacts := Some {| method := Some "default"; args := c3 |} |};
                run_setup_of := rs; params := params |}) sweep w =
     (w, Raised (NotImplementedError "Logfile parsing function not found"))).
Proof.
  split_and!; reflexivity.
Qed.

(** * Further properties of the code *)

Import Cover.

(** ** Buffers of the aggregator *)

Lemma buffered_with_storage n s w : buffered n (with_storage s w) = default [] (s !! n).
Proof. reflexivity. Qed.

(** X1. Records ingested without the terminal flag are only buffered: the
    calls never raise, nothing is written to the backend, and afterwards the
    buffer of every metric name holds what it held before followed by the
    records of that name, in call order, whatever other names came in
    between. *)
Theorem buffers_grouped_by_name run args rs w :
  ∃ w', for_each rs (λ r, network_size run r args false) w = (w', Ok tt) ∧
        events w' = events w ∧
        ∀ n, buffered n w' = buffered n w ++ filter (λ r, metric_name r = n) rs.
Proof.
  revert w. induction rs as [|r rs IH]; intros w.
  - exists w. split_and!; [done | done |]. intros n. by rewrite filter_nil, app_nil_r.
  - destruct (IH (with_storage (<[metric_name r := buffered (metric_name r) w ++ [r]]>
                                  (metrics_storage w)) w)) as (w' & Hrun & Hev & Hbuf).
    exists w'. simpl. erewrite bind_ok by apply network_size_buffers.
    split_and!; [done | done |].
    intros n. rewrite Hbuf, buffered_with_storage, filter_cons.
    destruct (decide (metric_name r = n)) as [<-|Hne].
    + rewrite lookup_insert_eq. simpl. by rewrite <- app_assoc.
    + by rewrite lookup_insert_ne.
Qed.

(** X2. A call with the terminal flag removes the buffer entry of the
    record's metric name and leaves every other entry as it was, whether the
    flush succeeds or raises. *)
Theorem flush_removes_only_its_name run r args w n :
  metrics_storage (network_size run r args true w).1 !! n =
    if decide (n = metric_name r) then None else metrics_storage w !! n.
Proof.
  assert (metrics_storage (network_size run r args true w).1 =
          delete (metric_name r) (metrics_storage w)) as ->.
  { rewrite network_size_flushes.
    destruct (decide (reduce (collect (buffered (metric_name r) w ++ [r])) = []))
      as [He|Hne].
    - by rewrite aggregate_and_log_empty.
    - by rewrite aggregate_and_log_nonempty. }
  case_decide as Hn.
  - subst n. apply lookup_delete_eq.
  - by apply lookup_delete_ne.
Qed.

(** X3. When the flushed records hold a sample and the method arguments map
    ["lineseries"] to the boolean true, the flush ends with one line-series
    write: its x axis lists the distinct x values in order of first
    appearance, its single series their means, its key is the group of the
    run, and its titles are the axis labels of the record passed to the
    flushing call. For any other argument value the flush writes scalars
    only. *)
Theorem lineseries_written_on_request run m args ml w :
  pooled ml ≠ [] →
  ∃ scalars,
    Forall (is_scalar_of run) scalars ∧
    events (aggregate_and_log run m args ml w).1 =
      events w ++ scalars ++
      (if decide (args !! "lineseries" = Some (PBool true)) then
         [WandbLog (run_id run) (metric_name m +:+ "_series")
            (VLineSeries (first_seen (pooled ml).*1)
               [(λ x, np_mean (samples_at x (pooled ml))) <$> first_seen (pooled ml).*1]
               [run_group run] (y_axis m) (x_axis m)) None]
       else []).
Proof.
  intros Hne.
  rewrite aggregate_and_log_nonempty
    by (rewrite reduce_collect; by rewrite per_x_means_nil).
  rewrite reduce_collect. unfold flush_events.
  exists ((at_event run (metric_name m) <$> per_x_means ml)
          ++ [avg_event run (metric_name m) (avg_means (per_x_means ml))]).
  split.
  - apply Forall_app. split.
    + apply Forall_fmap, Forall_forall. intros kv _. by eexists _, _, _.
    + constructor; [by eexists _, _, _ | constructor].
  - simpl. rewrite <- !app_assoc. do 3 f_equal.
    unfold series_events. case_decide; [|done].
    unfold per_x_means. by rewrite <- !list_fmap_compose, list_fmap_id.
Qed.

Lemma lineseries_written_on_request_witness :
  pooled [Sample.rec1; Sample.rec2] ≠ [] ∧
  ∃ scalars,
    Forall (is_scalar_of Sample.run0) scalars ∧
    events (aggregate_and_log Sample.run0 Sample.rec2 {[ "lineseries" := PBool true ]}
              [Sample.rec1; Sample.rec2] Sample.w0).1 =
      events Sample.w0 ++ scalars ++
      [WandbLog "r1" "pdr_series"
         (VLineSeries [50; 100; 150]%Z
            [(λ x, np_mean (samples_at x (pooled [Sample.rec1; Sample.rec2])))
               <$> [50; 100; 150]%Z]
            ["g"] "PDR" "nodes") None].
Proof.
  assert (pooled [Sample.rec1; Sample.rec2] ≠ []) as H by (vm_compute; discriminate).
  split; [exact H|].
  exact (lineseries_written_on_request Sample.run0 Sample.rec2
           {[ "lineseries" := PBool true ]} [Sample.rec1; Sample.rec2] Sample.w0 H).
Defined.

(** ** Range of the aggregates *)








(** ** Parsing one metrics directory *)

Lemma bind_ret_r (m : M unit) w : (m ;;; ret tt) w = m w.
Proof. unfold bind, ret. by destruct (m w) as [w1 [[]|e]]. Qed.

Lemma for_each_ext {A} (l : list A) (f g : A → M unit) w :
  (∀ x w0, x ∈ l → f x w0 = g x w0) → for_each l f w = for_each l g w.
Proof.
  revert w. induction l as [|x l IH]; intros w H; [done|]. simpl. unfold bind.
  rewrite (H x w) by apply list_elem_of_here.
  destruct (g x w) as [w1 [[]|e]]; [|done].
  apply IH. intros y w0 Hy. apply H. by apply list_elem_of_further.
Qed.

Lemma for_each_fmap {A B} (h : A → B) (l : list A) (f : B → M unit) w :
  for_each (h <$> l) f w = for_each l (λ x, f (h x)) w.
Proof.
  revert w. induction l as [|x l IH]; intros w; [done|]. simpl. unfold bind.
  by destruct (f (h x) w) as [w1 [[]|e]].
Qed.

Lemma parse_file_ineligible run dir args last ent w :
  eligible dir ent = false → parse_metrics_file run dir args last ent w = (w, Ok tt).
Proof.
  unfold eligible, parse_metrics_file. intros H.
  destruct (is_file ent), (endswith _ _); simpl in *; done.
Qed.

Lemma supported_network_size ent :
  supported ent = true ↔ mtype (yaml ent) = "network-size".
Proof.
  unfold supported, metric_type_handling. rewrite bool_decide_eq_true. split.
  - intros [h Hh]. by apply lookup_singleton_Some in Hh as [-> _].
  - intros ->. by rewrite lookup_singleton_eq.
Qed.

Lemma parse_file_supported run dir args last ent w :
  eligible dir ent = true → supported ent = true →
  parse_metrics_file run dir args last ent w = network_size run (yaml ent) args last w.
Proof.
  unfold eligible, parse_metrics_file. intros [-> ->]%andb_true_iff Hs.
  apply supported_network_size in Hs. simpl. rewrite Hs.
  unfold metric_type_handling. by rewrite lookup_singleton_eq.
Qed.

Lemma parse_file_unsupported run dir args last ent w :
  eligible dir ent = true → supported ent = false →
  parse_metrics_file run dir args last ent w = emit (unsupported_warning dir ent) w.
Proof.
  unfold eligible, parse_metrics_file, supported. intros [-> ->]%andb_true_iff Hs.
  apply bool_decide_eq_false in Hs. simpl.
  destruct (metric_type_handling !! mtype (yaml ent)) as [h|] eqn:Hh; [|done].
  destruct Hs. by exists h.
Qed.

Lemma network_size_flush_storage run r args w :
  metrics_storage (network_size run r args true w).1 =
    delete (metric_name r) (metrics_storage w).
Proof.
  rewrite network_size_flushes.
  destruct (decide (reduce (collect (buffered (metric_name r) w ++ [r])) = [])) as [He|Hne].
  - by rewrite aggregate_and_log_empty.
  - by rewrite aggregate_and_log_nonempty.
Qed.

(** X5. Of the entries of a metrics directory only regular files whose path
    ends in [.yaml] are read: parsing the directory is parsing the listing
    with every other entry removed, and such an entry changes nothing. *)
Theorem only_yaml_files_are_read E run dir args last w :
  default_parse_metrics E run dir args last w =
    for_each (filter (λ ent, eligible dir ent = true) (listdir E dir))
             (parse_metrics_file run dir args last) w ∧
  ∀ ent w0, eligible dir ent = false →
            parse_metrics_file run dir args last ent w0 = (w0, Ok tt).
Proof.
  split; [|intros ent w0; apply parse_file_ineligible].
  unfold default_parse_metrics. generalize (listdir E dir). intros l.
  revert w. induction l as [|ent l IH]; intros w; [done|].
  rewrite filter_cons. destruct (decide (eligible dir ent = true)) as [He|He].
  - simpl. unfold bind. destruct (parse_metrics_file _ _ _ _ ent w) as [w1 [[]|e]]; [|done].
    apply IH.
  - apply not_true_is_false in He. simpl.
    erewrite bind_ok by (by apply parse_file_ineligible). apply IH.
Qed.


(** X7. After a directory has been parsed with the terminal flag and without
    error, no buffer entry is left for any metric name found in a readable
    file of a supported type, and the entries of all other names are as
    they were. *)
Theorem terminal_directory_leaves_no_buffer E run dir args w w' :
  default_parse_metrics E run dir args true w = (w', Ok tt) →
  ∀ n, metrics_storage w' !! n =
       if decide (n ∈ (metric_name ∘ yaml) <$>
                        filter (λ ent, eligible dir ent && supported ent = true)
                               (listdir E dir))
       then None else metrics_storage w !! n.
Proof.
  unfold default_parse_metrics. generalize (listdir E dir). intros l.
  revert w. induction l as [|ent l IH]; intros w Hrun n.
  - injection Hrun as <-. by rewrite decide_False by apply not_elem_of_nil.
  - simpl in Hrun. apply bind_inv_ok in Hrun as (w1 & [] & Hent & Hrest).
    rewrite (IH _ Hrest n). rewrite filter_cons.
    destruct (eligible dir ent) eqn:He; [destruct (supported ent) eqn:Hs|]; simpl.
    +       rewrite parse_file_supported in Hent by done.
      assert (metrics_storage w1 = delete (metric_name (yaml ent)) (metrics_storage w))
        as Hst by (by rewrite <- (network_size_flush_storage run _ args), Hent).
      destruct (decide (n ∈ _ <$> filter _ l)) as [Hin|Hnin].
      * by rewrite decide_True by (by apply list_elem_of_further).
      * rewrite Hst. destruct (decide (n = metric_name (yaml ent))) as [->|Hne].
        -- rewrite decide_True by apply list_elem_of_here. apply lookup_delete_eq.
        -- rewrite decide_False by (rewrite not_elem_of_cons; done).
           by rewrite lookup_delete_ne.
    + rewrite parse_file_unsupported in Hent by done. by injection Hent as <-.
    + rewrite parse_file_ineligible in Hent by done. by injection Hent as <-.
Qed.

Lemma terminal_directory_leaves_no_buffer_witness :
  (default_parse_metrics Sample.env0 Sample.run0 "/metrics/g_run_r1" ∅ true Sample.w0).2
    = Ok tt ∧
  metrics_storage
    (default_parse_metrics Sample.env0 Sample.run0 "/metrics/g_run_r1" ∅ true Sample.w0).1
    !! "pdr" = None.
Proof.
  assert ((default_parse_metrics Sample.env0 Sample.run0 "/metrics/g_run_r1" ∅ true
             Sample.w0).2 = Ok tt) as Hok by (vm_compute; reflexivity).
  split; [exact Hok|].
  assert (default_parse_metrics Sample.env0 Sample.run0 "/metrics/g_run_r1" ∅ true Sample.w0 =
          ((default_parse_metrics Sample.env0 Sample.run0 "/metrics/g_run_r1" ∅ true
              Sample.w0).1, Ok tt)) as Hrun
    by (rewrite <- Hok; apply surjective_pairing).
  exact (terminal_directory_leaves_no_buffer Sample.env0 Sample.run0 "/metrics/g_run_r1"
           ∅ Sample.w0 _ Hrun "pdr").
Defined.

Lemma buffered_after_flush n es w :
  buffered n (add_events es (with_storage (delete n (metrics_storage w)) w)) = [].
Proof. unfold buffered. simpl. by rewrite lookup_delete_eq. Qed.

(** X8. In a directory parsed with the terminal flag every file is a
    terminal record: when two readable network-size files carry the same
    metric name and each flush has a sample to reduce, the name is
    aggregated twice, first over everything buffered plus the first file,
    then over the second file alone. *)
Theorem same_name_twice_in_terminal_directory E run dir args e1 e2 n w :
  listdir E dir = [e1; e2] →
  eligible dir e1 = true → eligible dir e2 = true →
  mtype (yaml e1) = "network-size" → mtype (yaml e2) = "network-size" →
  metric_name (yaml e1) = n → metric_name (yaml e2) = n →
  pooled (buffered n w ++ [yaml e1]) ≠ [] → pooled [yaml e2] ≠ [] →
  ∃ w',
    default_parse_metrics E run dir args true w = (w', Ok tt) ∧
    events w' =
      events w
      ++ flush_events run (yaml e1) args (per_x_means (buffered n w ++ [yaml e1]))
      ++ flush_events run (yaml e2) args (per_x_means [yaml e2]) ∧
    aggregates_emitted n (events_since w w') = 2.
Proof.
  intros Hdir He1 He2 Ht1 Ht2 Hn1 Hn2 Hp1 Hp2.
  apply supported_network_size in Ht1, Ht2.
  unfold default_parse_metrics. rewrite Hdir. simpl.
  unfold bind. rewrite parse_file_supported, network_size_flushes, Hn1 by done.
  rewrite aggregate_and_log_nonempty
    by (rewrite reduce_collect; by rewrite per_x_means_nil).
  rewrite parse_file_supported, network_size_flushes, Hn2 by done.
  rewrite buffered_after_flush. simpl app.
  rewrite aggregate_and_log_nonempty
    by (rewrite reduce_collect; by rewrite per_x_means_nil).
  rewrite !reduce_collect. eexists. split; [reflexivity|].
  simpl. rewrite <- app_assoc. split; [done|].
  unfold events_since. simpl. rewrite <- app_assoc, drop_app_length.
  rewrite aggregates_emitted_app.
  pose proof (flush_emits_one_aggregate run (yaml e1) args
                (per_x_means (buffered n w ++ [yaml e1]))) as H1.
  pose proof (flush_emits_one_aggregate run (yaml e2) args (per_x_means [yaml e2])) as H2.
  rewrite Hn1 in H1. rewrite Hn2 in H2. by rewrite H1, H2.
Qed.

Lemma same_name_twice_in_terminal_directory_witness :
  ∃ w',
    default_parse_metrics
      {| EXPERIMENT_SCRIPT := ""; EXP_ARGS := "";
         listdir := λ _, [Sample.entry_a; Sample.entry_b];
         log_at := λ _, LogMissing; elapsed := λ _, 0%Q;
         backend_run_id := λ _, ""; sweep_run_config := λ _, [];
         sweep_run_group := ""; generate_id := λ _, ""; sweep_id := "" |}
      Sample.run0 "/m" ∅ true Sample.w0 = (w', Ok tt) ∧
    aggregates_emitted "pdr" (events_since Sample.w0 w') = 2.
Proof.
  destruct (same_name_twice_in_terminal_directory
              {| EXPERIMENT_SCRIPT := ""; EXP_ARGS := "";
                 listdir := λ _, [Sample.entry_a; Sample.entry_b];
                 log_at := λ _, LogMissing; elapsed := λ _, 0%Q;
                 backend_run_id := λ _, ""; sweep_run_config := λ _, [];
                 sweep_run_group := ""; generate_id := λ _, ""; sweep_id := "" |}
              Sample.run0 "/m" ∅ Sample.entry_a Sample.entry_b "pdr" Sample.w0
              eq_refl eq_refl eq_refl eq_refl eq_refl eq_refl eq_refl)
    as (w' & Hrun & _ & Hcount).
  - vm_compute. discriminate.
  - vm_compute. discriminate.
  - exists w'. split; [exact Hrun | exact Hcount].
Defined.

(** X9. A readable network-size file that leaves nothing to reduce (no
    sample in it nor buffered before it) aborts the parsing of a terminal
    directory with [ZeroDivisionError]: the buffer entry of its name is
    removed, and the files listed after it are not processed. *)
Theorem empty_file_aborts_terminal_directory E run dir args l1 ent l2 w w1 :
  listdir E dir = l1 ++ ent :: l2 →
  for_each l1 (parse_metrics_file run dir args true) w = (w1, Ok tt) →
  eligible dir ent = true →
  mtype (yaml ent) = "network-size" →
  pooled (buffered (metric_name (yaml ent)) w1 ++ [yaml ent]) = [] →
  default_parse_metrics E run dir args true w =
    (with_storage (delete (metric_name (yaml ent)) (metrics_storage w1)) w1,
     Raised ZeroDivisionError).
Proof.
  intros Hdir Hl1 He Ht Hp. apply supported_network_size in Ht.
  unfold default_parse_metrics. rewrite Hdir, for_each_app.
  erewrite bind_ok by exact Hl1. simpl.
  apply bind_raised. rewrite parse_file_supported, network_size_flushes by done.
  apply aggregate_and_log_empty. rewrite reduce_collect. by apply per_x_means_nil.
Qed.

Lemma empty_file_aborts_terminal_directory_witness :
  default_parse_metrics
    {| EXPERIMENT_SCRIPT := ""; EXP_ARGS := "";
       listdir := λ _, [{| fname := "empty.yaml"; is_file := true;
                           yaml := Sample.rec_empty |}; Sample.entry_a];
       log_at := λ _, LogMissing; elapsed := λ _, 0%Q;
       backend_run_id := λ _, ""; sweep_run_config := λ _, [];
       sweep_run_group := ""; generate_id := λ _, ""; sweep_id := "" |}
    Sample.run0 "/m" ∅ true Sample.w0 =
    (with_storage (delete "pdr" (metrics_storage Sample.w0)) Sample.w0,
     Raised ZeroDivisionError).
Proof.
  exact (empty_file_aborts_terminal_directory
           {| EXPERIMENT_SCRIPT := ""; EXP_ARGS := "";
              listdir := λ _, [{| fname := "empty.yaml"; is_file := true;
                                  yaml := Sample.rec_empty |}; Sample.entry_a];
              log_at := λ _, LogMissing; elapsed := λ _, 0%Q;
              backend_run_id := λ _, ""; sweep_run_config := λ _, [];
              sweep_run_group := ""; generate_id := λ _, ""; sweep_id := "" |}
           Sample.run0 "/m" ∅ [] {| fname := "empty.yaml"; is_file := true;
                                     yaml := Sample.rec_empty |} [Sample.entry_a]
           Sample.w0 Sample.w0 eq_refl eq_refl eq_refl eq_refl eq_refl).
Defined.

(** ** Parsing the directories of a batch *)

Lemma parse_single_file_directory E run d args last ent w :
  listdir E d = [ent] → eligible d ent = true → mtype (yaml ent) = "network-size" →
  default_parse_metrics E run d args last w = network_size run (yaml ent) args last w.
Proof.
  intros Hdir He Ht. apply supported_network_size in Ht.
  unfold default_parse_metrics. rewrite Hdir. simpl.
  rewrite bind_ret_r. by apply parse_file_supported.
Qed.

Lemma parse_dirs_flush E run args n (ent : string → dir_entry) ds d w :
  (∀ d', d' ∈ ds ++ [d] →
         listdir E d' = [ent d'] ∧ eligible d' (ent d') = true ∧
         mtype (yaml (ent d')) = "network-size" ∧ metric_name (yaml (ent d')) = n) →
  parse_metrics_dirs run (ds ++ [d]) (default_parse_metrics E) args w =
    aggregate_and_log run (yaml (ent d)) args
      (buffered n w ++ ((yaml ∘ ent) <$> ds) ++ [yaml (ent d)])
      (with_storage (delete n (metrics_storage w)) w).
Proof.
  intros Hdirs. unfold parse_metrics_dirs, enumerate.
  rewrite (for_each_enumerated (λ b d', default_parse_metrics E run d' args b)
             (length (ds ++ [d])) 0) by (rewrite length_app; simpl; lia).
  rewrite <- (ingest_sequence_flushes run args n ((yaml ∘ ent) <$> ds)).
  - unfold ingest_sequence, bind. rewrite for_each_fmap.
    rewrite (for_each_ext ds _ (λ x, network_size run ((yaml ∘ ent) x) args false)).
    + destruct (for_each ds _ w) as [w1 [[]|e]]; [|done].
      destruct (Hdirs d) as (Hd & He & Ht & _); [set_solver|].
      by apply parse_single_file_directory.
    + intros d' w0 Hd'. destruct (Hdirs d') as (Hd & He & Ht & _); [set_solver|].
      by apply parse_single_file_directory.
  - apply Forall_app. split.
    + apply Forall_fmap, Forall_forall. intros d' Hd'. simpl.
      destruct (Hdirs d') as (_ & _ & _ & Hn); [set_solver | done].
    + constructor; [|constructor].
      destruct (Hdirs d) as (_ & _ & _ & Hn); [set_solver | done].
Qed.

(** X10. When every directory of a batch holds one readable network-size
    file of the same metric name, parsing the directories in order with the
    default routine reduces everything once: the records buffered before
    and the files of all directories are handed, in order, to a single
    flush made for the file of the last directory; if they hold a sample,
    exactly one aggregate is emitted. *)
Theorem directories_pool_into_one_flush E run args n (ent : string → dir_entry) ds d w :
  (∀ d', d' ∈ ds ++ [d] →
         listdir E d' = [ent d'] ∧ eligible d' (ent d') = true ∧
         mtype (yaml (ent d')) = "network-size" ∧ metric_name (yaml (ent d')) = n) →
  let all := buffered n w ++ ((yaml ∘ ent) <$> ds) ++ [yaml (ent d)] in
  parse_metrics_dirs run (ds ++ [d]) (default_parse_metrics E) args w =
    aggregate_and_log run (yaml (ent d)) args all
      (with_storage (delete n (metrics_storage w)) w) ∧
  (pooled all ≠ [] →
   ∃ new, parse_metrics_dirs run (ds ++ [d]) (default_parse_metrics E) args w =
            (add_events new (with_storage (delete n (metrics_storage w)) w), Ok tt) ∧
          aggregates_emitted n new = 1).
Proof.
  intros Hdirs all.
  pose proof (parse_dirs_flush E run args n ent ds d w Hdirs) as Heq. fold all in Heq.
  split; [exact Heq|].
  intros Hp. rewrite Heq.
  rewrite aggregate_and_log_nonempty
    by (rewrite reduce_collect; by rewrite per_x_means_nil).
  eexists. split; [reflexivity|].
  destruct (Hdirs d) as (_ & _ & _ & <-); [set_solver|].
  apply flush_emits_one_aggregate.
Qed.

Lemma directories_pool_into_one_flush_witness :
  (∀ d', d' ∈ ["/m/0"] ++ ["/m/1"] →
         listdir env_one_file d' = [Sample.entry_a] ∧ eligible d' Sample.entry_a = true ∧
         mtype (yaml Sample.entry_a) = "network-size" ∧
         metric_name (yaml Sample.entry_a) = "pdr") ∧
  parse_metrics_dirs Sample.run0 (["/m/0"] ++ ["/m/1"]) (default_parse_metrics env_one_file)
    ∅ Sample.w0 =
    aggregate_and_log Sample.run0 Sample.rec1 ∅
      (buffered "pdr" Sample.w0 ++ ((yaml ∘ (λ _, Sample.entry_a)) <$> ["/m/0"])
       ++ [Sample.rec1])
      (with_storage (delete "pdr" (metrics_storage Sample.w0)) Sample.w0).
Proof.
  assert (∀ d', d' ∈ ["/m/0"] ++ ["/m/1"] →
            listdir env_one_file d' = [Sample.entry_a] ∧ eligible d' Sample.entry_a = true ∧
            mtype (yaml Sample.entry_a) = "network-size" ∧
            metric_name (yaml Sample.entry_a) = "pdr") as H.
  { intros d' Hd'. simpl in Hd'. rewrite !elem_of_cons in Hd'.
    destruct Hd' as [->|[->|Hd']]; [by repeat split | by repeat split |].
    by apply elem_of_nil in Hd'. }
  split; [exact H|].
  exact (proj1 (directories_pool_into_one_flush env_one_file Sample.run0 ∅ "pdr"
                  (λ _, Sample.entry_a) ["/m/0"] "/m/1" Sample.w0 H)).
Defined.

(** ** Run wrapper lifecycles *)

Lemma emits_weaken {A} (P Q : event → Prop) (m : M A) :
  (∀ e, P e → Q e) → emits P m → emits Q m.
Proof.
  intros HPQ Hm w w' r Hrun. destruct (Hm _ _ _ Hrun) as (es & Hev & Hes).
  exists es. split; [done|]. eapply Forall_impl; [exact Hes | exact HPQ].
Qed.

Lemma parse_event_not_final e : parse_event e → not_final e.
Proof. by destruct e. Qed.

Lemma emits_makedirs path : emits not_final (makedirs path).
Proof.
  intros w w' r. unfold makedirs. case_decide.
  - intros [= <- <-]. exists []. by rewrite app_nil_r.
  - intros [= <- <-]. exists [Makedirs path]. split; [done | by repeat constructor].
Qed.

Lemma emits_make_run_dirs self run suffix : emits not_final (make_run_dirs self run suffix).
Proof.
  unfold make_run_dirs. apply emits_bind; [apply emits_makedirs | intros _].
  apply emits_bind; [|intros _; apply emits_ret].
  destruct (_ <$> _artifacts_dirpath self); [apply emits_makedirs | apply emits_ret].
Qed.

Lemma emits_run_single_experiment E cfg m l a o :
  emits not_final (run_single_experiment E cfg m l a o).
Proof.
  intros w w' r [= <- <-]. eexists [_]. split; [done | by repeat constructor].
Qed.

Lemma emits_sweep_loop E self run runs acc :
  emits not_final (sweep_loop E self run runs acc).
Proof.
  revert acc. induction runs as [|i runs IH]; intros acc; simpl.
  - apply emits_ret.
  - apply emits_bind; [|intros acc'; apply IH].
    unfold sweep_iteration. apply emits_bind; [apply emits_make_run_dirs|].
    intros [[m l] a]. apply emits_bind; [apply emits_run_single_experiment|].
    intros d. apply emits_ret.
Qed.

Lemma not_final_silent es :
  Forall not_final es → finishes es = [] ∧ duration_logs es = [].
Proof.
  induction 1 as [|e es He _ [IH1 IH2]]; [done|].
  unfold finishes, duration_logs in *.
  destruct e; simpl in *; try done. by rewrite decide_False by done.
Qed.

(** X11. A run wrapper lifecycle that raises, in either variant, has created
    its tracked run but neither logs ["duration_secs"] nor finishes the run:
    the run is left unfinished on the backend. *)
Theorem failed_lifecycle_is_not_finalized E w w' e :
  (∀ self, sweep_do_run_experiment E self w = (w', Raised e) →
     ∃ rest, events w' = events w ++ WandbInit None None None :: rest ∧
             finishes rest = [] ∧ duration_logs rest = []) ∧
  (∀ self, simple_do_run_experiment E self w = (w', Raised e) →
     ∃ rest, events w' =
               events w ++ WandbInit (_proj_name self) (Some (_group_id (simple_base self)))
                             (Some (_run_config self)) :: rest ∧
             finishes rest = [] ∧ duration_logs rest = []).
Proof.
  split; intros self Hrun.
  - unfold sweep_do_run_experiment, sweep_create_run, bind in Hrun.
    unfold wandb_init at 1 in Hrun. simpl in Hrun.
    destruct (sweep_loop _ _ _ _ _ _) as [w2 [acc|e2]] eqn:Hloop.
    + destruct (parse_outputs _ _ _ _ _ _ _) as [w3 [[]|e3]] eqn:Hparse; [done|].
      injection Hrun as <- <-.
      apply emits_sweep_loop in Hloop as (es1 & Hev1 & Hes1).
      apply (emits_weaken _ _ _ parse_event_not_final (emits_parse_outputs _ _ _ _ _ _))
        in Hparse as (es2 & Hev2 & Hes2).
      exists (es1 ++ es2). simpl in Hev1. rewrite Hev2, Hev1, <- !app_assoc.
      split; [done|]. apply not_final_silent. by apply Forall_app.
    + injection Hrun as <- <-.
      apply emits_sweep_loop in Hloop as (es1 & Hev1 & Hes1).
      exists es1. simpl in Hev1. rewrite Hev1, <- !app_assoc.
      split; [done|]. by apply not_final_silent.
  - unfold simple_do_run_experiment, simple_create_run, bind in Hrun.
    unfold wandb_init at 1 in Hrun. simpl in Hrun.
    destruct (make_run_dirs _ _ _ _) as [w2 [[[m l] a]|e2]] eqn:Hdirs.
    + apply emits_make_run_dirs in Hdirs as (es1 & Hev1 & Hes1).
      unfold run_single_experiment, subprocess_run_timed in Hrun. simpl in Hrun.
      destruct (parse_outputs _ _ _ _ _ _ _) as [w3 [[]|e3]] eqn:Hparse; [done|].
      injection Hrun as <- <-.
      apply (emits_weaken _ _ _ parse_event_not_final (emits_parse_outputs _ _ _ _ _ _))
        in Hparse as (es2 & Hev2 & Hes2).
      simpl in Hev1, Hev2.
      eexists (es1 ++ [SubprocessRun _] ++ es2). rewrite Hev2, Hev1, <- !app_assoc.
      split; [done|]. apply not_final_silent.
      rewrite !Forall_app. split_and!; [done | by repeat constructor | done].
    + injection Hrun as <- <-.
      apply emits_make_run_dirs in Hdirs as (es1 & Hev1 & Hes1).
      exists es1. simpl in Hev1. rewrite Hev1, <- !app_assoc.
      split; [done|]. by apply not_final_silent.
Qed.

Lemma failed_lifecycle_is_not_finalized_witness :
  (sweep_do_run_experiment env_empty_file Sample.sweep_wrapper Sample.w0).2
    = Raised ZeroDivisionError ∧
  (∃ rest,
     events (sweep_do_run_experiment env_empty_file Sample.sweep_wrapper Sample.w0).1 =
       events Sample.w0 ++ WandbInit None None None :: rest ∧
     finishes rest = [] ∧ duration_logs rest = []).
Proof.
  assert ((sweep_do_run_experiment env_empty_file Sample.sweep_wrapper Sample.w0).2
          = Raised ZeroDivisionError) as Hr by (vm_compute; reflexivity).
  split; [exact Hr|].
  assert (sweep_do_run_experiment env_empty_file Sample.sweep_wrapper Sample.w0 =
          ((sweep_do_run_experiment env_empty_file Sample.sweep_wrapper Sample.w0).1,
           Raised ZeroDivisionError)) as Hrun
    by (rewrite <- Hr; apply surjective_pairing).
  exact (proj1 (failed_lifecycle_is_not_finalized env_empty_file Sample.w0 _
                  ZeroDivisionError) Sample.sweep_wrapper Hrun).
Defined.

(** X12. A simple run wrapper lifecycle that completes creates one tracked
    run with the wrapper's project, group and configuration, executes the
    experiment exactly once, on the run's own directories (no repetition
    suffix) and with no run-scoped extra argument, logs the duration of that
    one execution as ["duration_secs"], and finishes the run as its last
    action. *)
Theorem simple_lifecycle E self w w' :
  simple_do_run_experiment E self w = (w', Ok tt) →
  let run := simple_run E self w in
  let dirs := run_dirs (simple_base self) run "" in
  ∃ new,
    events w' =
      events w ++ WandbInit (_proj_name self) (Some (_group_id (simple_base self)))
                    (Some (_run_config self)) :: new ∧
    subprocess_calls new = [build_cmd E (_run_config self) dirs.1.1 dirs.1.2 dirs.2 []] ∧
    finishes new = [run_id run] ∧
    last new = Some (WandbFinish (run_id run)) ∧
    duration_logs new = [VFloat (Fin (elapsed E (procs_run w)))].
Proof.
  intros Hrun run dirs. unfold simple_do_run_experiment, simple_create_run in Hrun.
  apply bind_inv_ok in Hrun as (w1 & run' & Hinit & Hrun).
  unfold wandb_init in Hinit. injection Hinit as <- <-. simpl in Hrun. fold run in Hrun.
  apply bind_inv_ok in Hrun as (w2 & ds & Hdirs & Hrun).
  apply make_run_dirs_ok in Hdirs as (-> & Hp & es1 & Hev1 & Hes1).
  unfold run_dirs in Hrun. simpl in Hrun.
  apply bind_inv_ok in Hrun as (w3 & dur & Hexec & Hrun).
  unfold run_single_experiment, subprocess_run_timed in Hexec.
  injection Hexec as <- <-.
  apply bind_inv_ok in Hrun as (w4 & [] & Hparse & Hrun).
  apply emits_parse_outputs in Hparse as (es2 & Hev2 & Hes2).
  apply parse_events_silent in Hes2 as (Hc2 & Hf2 & Hl2).
  apply dir_events_silent in Hes1 as (Hc1 & Hf1 & Hl1).
  unfold bind, emit in Hrun. simpl in Hrun. injection Hrun as <-.
  simpl in Hev1, Hev2, Hp.
  exists (es1 ++ [SubprocessRun (build_cmd E (_run_config self) dirs.1.1 dirs.1.2 dirs.2 [])]
          ++ es2
          ++ [WandbLog (run_id run) "duration_secs"
                (VFloat (Fin (elapsed E (procs_run w2)))) None;
              WandbFinish (run_id run)]).
  split_and!.
  - simpl. rewrite Hev2, Hev1. rewrite <- !app_assoc. done.
  - unfold subprocess_calls in *. rewrite !omap_app, Hc1, Hc2. done.
  - unfold finishes in *. rewrite !omap_app, Hf1, Hf2. done.
  - change [?a; ?b] with ([a] ++ [b]). rewrite !app_assoc. apply last_snoc.
  - unfold duration_logs in *. rewrite !omap_app, Hl1, Hl2, Hp. done.
Qed.

Lemma simple_lifecycle_witness :
  (simple_do_run_experiment Sample.env0 simple_wrapper Sample.w0).2 = Ok tt ∧
  ∃ new,
    events (simple_do_run_experiment Sample.env0 simple_wrapper Sample.w0).1 =
      events Sample.w0 ++ WandbInit (Some "proj") (Some "k3x9q2ab")
                            (Some [("nodes", PInt 50); ("run", PInt 0)]) :: new ∧
    subprocess_calls new =
      [["bash"; "simulate.sh"; "/metrics/k3x9q2ab_run_run0"; "/logs/k3x9q2ab_run_run0.log";
        "/artifacts/k3x9q2ab_run_run0"; "--quiet"; "--nodes=50"; "--run=0"]] ∧
    finishes new = ["run0"] ∧
    duration_logs new = [VFloat (Fin 1)].
Proof.
  assert ((simple_do_run_experiment Sample.env0 simple_wrapper Sample.w0).2 = Ok tt)
    as Hok by (vm_compute; reflexivity).
  split; [exact Hok|].
  assert (simple_do_run_experiment Sample.env0 simple_wrapper Sample.w0 =
          ((simple_do_run_experiment Sample.env0 simple_wrapper Sample.w0).1, Ok tt))
    as Hrun by (rewrite <- Hok; apply surjective_pairing).
  destruct (simple_lifecycle Sample.env0 simple_wrapper Sample.w0 _ Hrun)
    as (new & Hev & Hcalls & Hfin & _ & Hlogs).
  exists new. split_and!; [exact Hev | exact Hcalls | exact Hfin | exact Hlogs].
Defined.

Lemma make_run_dirs_clash self run suffix w :
  _artifacts_dirpath self = Some (_metrics_dirpath self) →
  ∃ w', make_run_dirs self run suffix w =
          (w', Raised (FileExistsError (run_dirs self run suffix).1.1)) ∧
        runs_made w' = runs_made w ∧ procs_run w' = procs_run w.
Proof.
  intros Hsame. unfold make_run_dirs, run_dirs, bind. rewrite Hsame. simpl.
  unfold makedirs at 1. case_decide as Hin.
  - by eexists.
  - unfold makedirs. simpl. rewrite decide_True by set_solver. by eexists.
Qed.

Lemma range_pos n : (1 ≤ n)%Z → ∃ rest, range n = 0%Z :: rest.
Proof.
  intros Hn. unfold range. destruct (Z.to_nat n) as [|k] eqn:Hk; [lia|].
  by eexists.
Qed.

(** X13. When the artifacts directory is configured to be the metrics
    directory, the run-specific artifacts path is the run-specific metrics
    path, and creating it fails: the lifecycle raises [FileExistsError] for
    that path after the tracked run was created and before the experiment is
    executed. This holds for a simple run, and for a sweep run with at least
    one repetition. *)
Theorem shared_output_directory_fails E w :
  (∀ self, _artifacts_dirpath (simple_base self) = Some (_metrics_dirpath (simple_base self)) →
     ∃ w', simple_do_run_experiment E self w =
             (w', Raised (FileExistsError
                            (run_dirs (simple_base self) (simple_run E self w) "").1.1)) ∧
           runs_made w' = S (runs_made w) ∧ procs_run w' = procs_run w) ∧
  (∀ self, _artifacts_dirpath (sweep_base self) = Some (_metrics_dirpath (sweep_base self)) →
     (1 ≤ _runs_per_sweep self)%Z →
     ∃ w', sweep_do_run_experiment E self w =
             (w', Raised (FileExistsError
                            (run_dirs (sweep_base self) (sweep_run E w) "_0").1.1)) ∧
           runs_made w' = S (runs_made w) ∧ procs_run w' = procs_run w).
Proof.
  split.
  - intros self Hsame. unfold simple_do_run_experiment, simple_create_run, bind.
    unfold wandb_init at 1. simpl.
    edestruct (make_run_dirs_clash (simple_base self)) as (w' & -> & Hr & Hp); [done|].
    exists w'. split; [done|]. by rewrite Hr, Hp.
  - intros self Hsame Hn. destruct (range_pos _ Hn) as [rest Hrange].
    unfold sweep_do_run_experiment, sweep_create_run, bind.
    unfold wandb_init at 1. simpl. rewrite Hrange. simpl.
    unfold bind, sweep_iteration, bind.
    edestruct (make_run_dirs_clash (sweep_base self)) as (w' & -> & Hr & Hp); [done|].
    exists w'. split; [done|]. by rewrite Hr, Hp.
Qed.

Lemma shared_output_directory_fails_witness :
  _artifacts_dirpath (simple_base clashing_wrapper) =
    Some (_metrics_dirpath (simple_base clashing_wrapper)) ∧
  ∃ w', simple_do_run_experiment Sample.env0 clashing_wrapper Sample.w0 =
          (w', Raised (FileExistsError "/out/k3x9q2ab_run_run0")) ∧
        runs_made w' = 1 ∧ procs_run w' = 0.
Proof.
  split; [reflexivity|].
  exact (proj1 (shared_output_directory_fails Sample.env0 Sample.w0)
           clashing_wrapper eq_refl).
Defined.



(** ** The batch scheduler and [main] *)

Lemma sweep_workers_spec agents wrapper its acc w :
  sweep_workers agents wrapper its acc w =
    (add_events (if bool_decide (1 < agents)%Z
                 then replicate (length its) (Sleep 0.5) else []) w,
     Ok (acc ++ replicate (length its) wrapper)).
Proof.
  revert acc w. induction its as [|i its IH]; intros acc w; simpl.
  - unfold ret. rewrite app_nil_r. by destruct (bool_decide _); rewrite add_events_nil.
  - unfold bind. destruct (bool_decide (1 < agents)%Z).
    + unfold emit. rewrite IH, add_event_events, add_events_app.
      by rewrite <- app_assoc.
    + unfold ret. rewrite IH. by rewrite <- app_assoc.
Qed.

(** X15. [perform_sweep] registers the sweep once and starts as many workers
    as the sweep setup asks agents for (one without a setup, none for a
    count below one); every worker is bound to the same sweep identity and
    the same number of runs per sweep (one by default), and the half-second
    pause after each start is made only when more than one agent is asked
    for. *)
Theorem sweep_workers_share_the_sweep E proj sc mdir ldir adir mf ma lf la af aa w :
  let sweep_agents := default 1%Z (sc ≫= agents) in
  let n := Z.to_nat sweep_agents in
  let wrapper :=
    {| sweep_base := new_base (sweep_id E) mdir ldir adir mf ma lf la af aa;
       _runs_per_sweep := default 1%Z (sc ≫= runs_per_sweep) |} in
  perform_sweep E proj sc mdir ldir adir mf ma lf la af aa w =
    (add_events (WandbSweep proj ::
                 (if bool_decide (1 < sweep_agents)%Z then replicate n (Sleep 0.5) else [])) w,
     Ok (replicate n wrapper)).
Proof.
  intros sweep_agents n wrapper. unfold perform_sweep, bind, emit.
  rewrite sweep_workers_spec, add_event_events, add_events_app.
  unfold range. rewrite length_fmap, length_seq. done.
Qed.

(** X16. A method name other than ["default"] in any of the three sections
    of the parsing setup is fatal: [main] raises [NotImplementedError] and
    leaves the state as it was, so nothing has run. *)
Theorem unknown_method_is_fatal E proj mdir ldir adir cfg ps sweep w c name :
  parsing_setup_of cfg = Some ps →
  Some c ∈ [ps_metrics ps; ps_logfile ps; ps_artifacts ps] →
  method c = Some name →
  name ≠ "default" →
  ∃ msg, main E proj mdir ldir adir (Some cfg) sweep w =
           (w, Raised (NotImplementedError msg)).
Proof.
  intros Hps Hc Hm Hname.
  assert (metric_dict !! name = None ∧ logfile_dict !! name = None ∧
          artifact_dict !! name = None) as (H1 & H2 & H3)
    by (split_and!; by apply lookup_singleton_ne).
  assert (∃ msg, (check_parsing_functions cfg w).2 = Raised (NotImplementedError msg))
    as [msg Hmsg].
  { unfold check_parsing_functions. rewrite Hps.
    repeat case_decide; simpl in *; eauto. exfalso.
    rewrite !elem_of_cons in Hc. destruct Hc as [Hc|[Hc|[Hc|Hc]]].
    - rewrite <- Hc in *. simpl in *. rewrite Hm in *. simpl in *. congruence.
    - rewrite <- Hc in *. simpl in *. rewrite Hm in *. simpl in *. congruence.
    - rewrite <- Hc in *. simpl in *. rewrite Hm in *. simpl in *. congruence.
    - by apply elem_of_nil in Hc. }
  exists msg. by apply main_fails_fast.
Qed.

Lemma unknown_method_is_fatal_witness :
  parsing_setup_of config_with_tail = Some setup_with_tail ∧
  Some {| method := Some "tail"; args := None |}
    ∈ [ps_metrics setup_with_tail; ps_logfile setup_with_tail; ps_artifacts setup_with_tail] ∧
  "tail" ≠ "default" ∧
  ∃ msg,
    main Sample.env0 "proj" "/metrics" None None (Some config_with_tail) None Sample.w0 =
      (Sample.w0, Raised (NotImplementedError msg)).
Proof.
  assert (Some {| method := Some "tail"; args := None |}
            ∈ [ps_metrics setup_with_tail; ps_logfile setup_with_tail;
               ps_artifacts setup_with_tail]) as Hin
    by apply list_elem_of_further, list_elem_of_here.
  assert ("tail" ≠ "default") as Hne by discriminate.
  split; [reflexivity | split; [exact Hin | split; [exact Hne|]]].
  exact (unknown_method_is_fatal Sample.env0 "proj" "/metrics" None None config_with_tail
           setup_with_tail None Sample.w0 {| method := Some "tail"; args := None |} "tail"
           eq_refl Hin eq_refl Hne).
Defined.

(** X17. Writing the run index into the configuration keeps its keys unique
    and in place: afterwards the key maps to the index (a value configured
    under the same key is replaced, a missing key is appended at the end),
    and every other entry is as before. *)
Theorem run_index_overrides_parameter (cfg : Config) k v :
  NoDup cfg.*1 →
  NoDup (dict_set cfg k v).*1 ∧
  (dict_set cfg k v).*1 = (if decide (k ∈ cfg.*1) then cfg.*1 else cfg.*1 ++ [k]) ∧
  (∀ k' v', (k', v') ∈ dict_set cfg k v ↔
            (k' = k ∧ v' = v) ∨ (k' ≠ k ∧ (k', v') ∈ cfg)).
Proof.
  intros Hnd.
  assert ((dict_set cfg k v).*1 = (if decide (k ∈ cfg.*1) then cfg.*1 else cfg.*1 ++ [k]))
    as Hkeys.
  { clear Hnd. induction cfg as [|[k0 v0] cfg IH]; [done|].
    cbn [dict_set]. destruct (decide (k0 = k)) as [->|Hne].
    - rewrite !fmap_cons. simpl. by rewrite decide_True by apply list_elem_of_here.
    - rewrite !fmap_cons, IH. simpl. destruct (decide (k ∈ cfg.*1)) as [Hin|Hnin].
      + by rewrite decide_True by (by apply list_elem_of_further).
      + rewrite decide_False; [done|]. rewrite not_elem_of_cons. split; [congruence | done]. }
  split_and!; [|done|].
  - rewrite Hkeys. case_decide as Hk; [done|].
    apply NoDup_app. split_and!; [done | | apply NoDup_singleton].
    intros x Hx ->%list_elem_of_singleton. done.
  - clear Hkeys. induction cfg as [|[k0 v0] cfg IH]; intros k' v'.
    + simpl. rewrite list_elem_of_singleton. split.
      * intros [= -> ->]. by left.
      * intros [[-> ->]|[_ Hin]]; [done | by apply elem_of_nil in Hin].
    + rewrite fmap_cons in Hnd. apply NoDup_cons in Hnd as [Hk0 Hnd].
      cbn [dict_set]. destruct (decide (k0 = k)) as [->|Hne].
      * rewrite !elem_of_cons. split.
        -- intros [[= -> ->]|Hin]; [by left|]. right.
           split; [|by right]. intros ->. apply Hk0.
           apply list_elem_of_fmap. by exists (k, v').
        -- intros [[-> ->]|[Hk' [[= -> ->]|Hin]]]; [by left | done | by right].
      * rewrite !elem_of_cons, (IH Hnd). split.
        -- intros [[= -> ->]|[[-> ->]|[Hk' Hin]]].
           ++ right. split; [done | by left].
           ++ by left.
           ++ right. split; [done | by right].
        -- intros [[-> ->]|[Hk' [[= -> ->]|Hin]]].
           ++ right. by left.
           ++ by left.
           ++ right. right. done.
Qed.

Lemma run_index_overrides_parameter_witness :
  NoDup ([("nodes", PInt 50); ("run", PStr "smoke"); ("seed", PInt 7)] : Config).*1 ∧
  dict_set [("nodes", PInt 50); ("run", PStr "smoke"); ("seed", PInt 7)] "run" (PInt 3) =
    [("nodes", PInt 50); ("run", PInt 3); ("seed", PInt 7)] ∧
  NoDup (dict_set [("nodes", PInt 50); ("run", PStr "smoke"); ("seed", PInt 7)]
           "run" (PInt 3)).*1.
Proof.
  assert (NoDup ([("nodes", PInt 50); ("run", PStr "smoke"); ("seed", PInt 7)] : Config).*1)
    as H by (apply NoDup_ListNoDup; repeat constructor; simpl; intuition discriminate).
  split; [exact H | split; [reflexivity|]].
  exact (proj1 (run_index_overrides_parameter _ "run" (PInt 3) H)).
Defined.






(** X19. Values of a metric file beyond the shorter of its two sequences are
    ignored: a flush yields the same result when every record is first cut
    to the pairs its x- and y-values form. *)
Theorem surplus_values_are_ignored run m args ml w :
  aggregate_and_log run m args (truncated <$> ml) w = aggregate_and_log run m args ml w.
Proof.
  assert (pooled (truncated <$> ml) = pooled ml) as Hp.
  { unfold pooled. induction ml as [|r ml IH]; [done|].
    rewrite fmap_cons, !bind_cons, IH. f_equal.
    unfold truncated. simpl. apply zip_with_take_both. }
  assert (collect (truncated <$> ml) = collect ml) as Hc
    by (unfold collect; by rewrite !collect_pooled, Hp).
  unfold aggregate_and_log. by rewrite Hc.
Qed.

(** ** Uploads of the parsing dispatch *)

Lemma emits_network_size_logs run r args last : emits log_or_print (network_size run r args last).
Proof.
  intros w w' res. destruct last.
  - rewrite network_size_flushes.
    destruct (decide (reduce (collect (buffered (metric_name r) w ++ [r])) = []))
      as [He|Hne].
    + rewrite aggregate_and_log_empty by done. intros [= <- <-].
      exists []. by rewrite app_nil_r.
    + rewrite aggregate_and_log_nonempty by done. intros [= <- <-].
      eexists. split; [reflexivity|]. unfold flush_events, series_events.
      rewrite !Forall_app. split_and!.
      * apply Forall_fmap, Forall_forall. by intros kv _.
      * by repeat constructor.
      * case_decide; by repeat constructor.
  - rewrite network_size_buffers. intros [= <- <-]. exists []. by rewrite app_nil_r.
Qed.

Lemma emits_metrics_logs E run dir args last :
  emits log_or_print (default_parse_metrics E run dir args last).
Proof.
  apply emits_for_each. intros ent. unfold parse_metrics_file.
  destruct (negb (is_file ent) || negb (endswith _ _)); [apply emits_ret|].
  destruct (metric_type_handling !! _) as [[]|].
  - apply emits_network_size_logs.
  - by apply emits_emit.
Qed.

Lemma emits_logfile_logs E run path args :
  emits log_or_print (default_parse_logfile E run path args).
Proof.
  unfold default_parse_logfile. destruct (log_at E path).
  - apply emits_ret.
  - by apply emits_emit.
  - by apply emits_emit.
Qed.

Lemma log_or_print_no_upload es : Forall log_or_print es → uploads es = [].
Proof.
  induction 1 as [|e es He _ IH]; [done|]. unfold uploads in *. by destruct e.
Qed.

Lemma for_each_upload run args (adirs : list string) w :
  for_each adirs (λ d, default_parse_artifacts run d args) w =
    (add_events ((λ d, WandbLogArtifact (run_id run) "artifacts" "misc" d) <$> adirs) w,
     Ok tt).
Proof.
  revert w. induction adirs as [|d adirs IH]; intros w; simpl.
  - by rewrite add_events_nil.
  - unfold bind, default_parse_artifacts, emit. rewrite IH, add_event_events.
    by rewrite add_events_app.
Qed.

Lemma uploads_of_artifacts id (adirs : list string) :
  uploads ((λ d, WandbLogArtifact id "artifacts" "misc" d) <$> adirs) = adirs.
Proof.
  induction adirs as [|d adirs IH]; [done|].
  rewrite fmap_cons. unfold uploads in *. cbn [omap list_omap]. by rewrite IH.
Qed.

(** X20. When the parsing of a run's outputs completes, every artifacts
    directory handed to the dispatch has been uploaded exactly once, in list
    order, and nothing else has been uploaded; without an artifacts routine
    nothing is uploaded. Metrics and log parsing upload no artifact. *)
Theorem artifacts_uploaded_once E self run mdirs lfiles adirs w w' :
  parse_outputs E self run mdirs lfiles adirs w = (w', Ok tt) →
  uploads (events_since w w') = if _artifacts_fn self is Some _ then adirs else [].
Proof.
  unfold parse_outputs, run_parse_functions. intros Hrun.
  apply bind_inv_ok in Hrun as (w1 & [] & Hm & Hrun).
  apply bind_inv_ok in Hrun as (w2 & [] & Hl & Ha).
  assert (∃ es1, events w1 = events w ++ es1 ∧ Forall log_or_print es1) as (es1 & Hev1 & Hes1).
  { revert Hm. destruct (_metrics_fn self) as [[]|]; simpl.
    - apply emits_for_each. intros p. apply emits_metrics_logs.
    - apply emits_ret. }
  assert (∃ es2, events w2 = events w1 ++ es2 ∧ Forall log_or_print es2) as (es2 & Hev2 & Hes2).
  { revert Hl. destruct (_logfile_fn self) as [[]|]; simpl.
    - apply emits_for_each. intros p. apply emits_logfile_logs.
    - apply emits_ret. }
  apply log_or_print_no_upload in Hes1, Hes2.
  assert (∃ es3, events w' = events w2 ++ es3 ∧
                 uploads es3 = if _artifacts_fn self is Some _ then adirs else [])
    as (es3 & Hev3 & Hes3).
  { destruct (_artifacts_fn self) as [[]|]; simpl in Ha.
    - rewrite for_each_upload in Ha. injection Ha as <-.
      eexists. split; [reflexivity | apply uploads_of_artifacts].
    - injection Ha as <-. exists []. by rewrite app_nil_r. }
  unfold events_since. rewrite Hev3, Hev2, Hev1, <- !app_assoc, drop_app_length.
  unfold uploads in *. by rewrite !omap_app, Hes1, Hes2, Hes3.
Qed.

Lemma artifacts_uploaded_once_witness :
  (parse_outputs Sample.env0 (simple_base simple_wrapper) Sample.run0
     ["/metrics/a"] [] ["/artifacts/a"; "/artifacts/b"] Sample.w0).2 = Ok tt ∧
  uploads (events_since Sample.w0
             (parse_outputs Sample.env0 (simple_base simple_wrapper) Sample.run0
                ["/metrics/a"] [] ["/artifacts/a"; "/artifacts/b"] Sample.w0).1)
    = ["/artifacts/a"; "/artifacts/b"].
Proof.
  assert ((parse_outputs Sample.env0 (simple_base simple_wrapper) Sample.run0
             ["/metrics/a"] [] ["/artifacts/a"; "/artifacts/b"] Sample.w0).2 = Ok tt)
    as Hok by (vm_compute; reflexivity).
  split; [exact Hok|].
  assert (parse_outputs Sample.env0 (simple_base simple_wrapper) Sample.run0
            ["/metrics/a"] [] ["/artifacts/a"; "/artifacts/b"] Sample.w0 =
          ((parse_outputs Sample.env0 (simple_base simple_wrapper) Sample.run0
              ["/metrics/a"] [] ["/artifacts/a"; "/artifacts/b"] Sample.w0).1, Ok tt))
    as Hrun by (rewrite <- Hok; apply surjective_pairing).
  exact (artifacts_uploaded_once Sample.env0 (simple_base simple_wrapper) Sample.run0
           ["/metrics/a"] [] ["/artifacts/a"; "/artifacts/b"] Sample.w0 _ Hrun).
Defined.

(** ** A sweep run from start to finish *)

Lemma quiet_ret n {A} (a : A) : quiet n (ret a).
Proof. intros w w' r [= <- <-]. split; [done|]. exists []. by rewrite app_nil_r. Qed.

Lemma quiet_emit n e : is_avg_log n e = false → quiet n (emit e).
Proof.
  intros He w w' r [= <- <-]. split; [done|]. exists [e]. split; [done|].
  apply aggregates_emitted_none. by intros e' ->%list_elem_of_singleton.
Qed.

Lemma quiet_bind n {A B} (m : M A) (k : A → M B) :
  quiet n m → (∀ a, quiet n (k a)) → quiet n (bind m k).
Proof.
  intros Hm Hk w w' r. unfold bind. destruct (m w) as [w1 [a|e]] eqn:Hmw.
  - intros Hkw. destruct (Hm _ _ _ Hmw) as (Hs1 & es1 & He1 & Hc1).
    destruct (Hk _ _ _ _ Hkw) as (Hs2 & es2 & He2 & Hc2).
    split; [congruence|]. exists (es1 ++ es2).
    rewrite He2, He1, app_assoc, aggregates_emitted_app, Hc1, Hc2. done.
  - intros [= <- <-]. by apply (Hm _ _ _ Hmw).
Qed.

Lemma quiet_for_each n {A} (l : list A) (body : A → M unit) :
  (∀ x, quiet n (body x)) → quiet n (for_each l body).
Proof.
  intros Hbody. induction l as [|x l IH]; simpl.
  - apply quiet_ret.
  - apply quiet_bind; [apply Hbody | intros _; apply IH].
Qed.

Lemma quiet_makedirs n path : quiet n (makedirs path).
Proof.
  intros w w' r. unfold makedirs. case_decide.
  - intros [= <- <-]. split; [done|]. exists []. by rewrite app_nil_r.
  - intros [= <- <-]. split; [done|]. by exists [Makedirs path].
Qed.

Lemma quiet_sweep_loop n E self run runs acc : quiet n (sweep_loop E self run runs acc).
Proof.
  revert acc. induction runs as [|i runs IH]; intros acc; simpl.
  - apply quiet_ret.
  - apply quiet_bind; [|intros acc'; apply IH].
    unfold sweep_iteration. apply quiet_bind.
    + unfold make_run_dirs. apply quiet_bind; [apply quiet_makedirs | intros _].
      apply quiet_bind; [|intros _; apply quiet_ret].
      destruct (_ <$> _artifacts_dirpath _); [apply quiet_makedirs | apply quiet_ret].
    + intros [[m l] a]. apply quiet_bind; [|intros d; apply quiet_ret].
      intros w w' r [= <- <-]. split; [done|]. by eexists [_].
Qed.

Lemma logfile_key_not_avg n : "logfile" ≠ n +:+ "_avg".
Proof. intros H. symmetry in H. peel_string H n. Qed.

Lemma duration_key_not_avg n : "duration_secs" ≠ n +:+ "_avg".
Proof. intros H. symmetry in H. by apply avg_key_not_duration in H. Qed.

Lemma quiet_logfile_phase n E (f : option logfile_parser) run lfiles args :
  quiet n (match call_logfile_parser E <$> f with
           | Some g => for_each lfiles (λ p, g run p args)
           | None => ret tt
           end).
Proof.
  destruct f as [[]|]; simpl; [|apply quiet_ret].
  apply quiet_for_each. intros p. unfold default_parse_logfile.
  destruct (log_at E p); [apply quiet_ret | |];
    apply quiet_emit, bool_decide_eq_false, logfile_key_not_avg.
Qed.

Lemma quiet_artifacts_phase n E (f : option artifacts_parser) run adirs args :
  quiet n (match call_artifacts_parser E <$> f with
           | Some g => for_each adirs (λ p, g run p args)
           | None => ret tt
           end).
Proof.
  destruct f as [[]|]; simpl; [|apply quiet_ret].
  apply quiet_for_each. intros p. by apply quiet_emit.
Qed.

(** X21. A sweep run with at least one repetition whose metrics directories
    each hold one readable network-size file of the same metric name, parsed
    by the default routine: if the lifecycle completes, the run's trace
    holds exactly one aggregate of that metric, and no buffer entry of the
    metric is left behind. *)
Theorem sweep_run_emits_one_aggregate E self (N : nat) n (ent : string → dir_entry) w w' :
  _runs_per_sweep self = Z.of_nat (S N) →
  _metrics_fn (sweep_base self) = Some DefaultParseMetrics →
  (∀ d, d ∈ sweep_metrics_dir self (sweep_run E w) <$> (Z.of_nat <$> seq 0 (S N)) →
        listdir E d = [ent d] ∧ eligible d (ent d) = true ∧
        mtype (yaml (ent d)) = "network-size" ∧ metric_name (yaml (ent d)) = n) →
  sweep_do_run_experiment E self w = (w', Ok tt) →
  aggregates_emitted n (events_since w w') = 1 ∧ metrics_storage w' !! n = None.
Proof.
  intros HN Hfn Hdirs Hrun.
  unfold sweep_do_run_experiment, sweep_create_run in Hrun.
  apply bind_inv_ok in Hrun as (w1 & run & Hinit & Hrun).
  unfold wandb_init in Hinit. injection Hinit as <- <-.
  change {| run_id := _; run_group := _; run_cfg := _ |} with (sweep_run E w) in Hrun.
  set (run := sweep_run E w) in *.
  apply bind_inv_ok in Hrun as (w2 & acc & Hloop & Hrun).
  destruct (quiet_sweep_loop n _ _ _ _ _ _ _ _ Hloop) as (Hst2 & es1 & Hev2 & Hc1).
  apply sweep_loop_ok in Hloop as (_ & Hmd & _). simpl in Hmd, Hst2, Hev2.
  apply bind_inv_ok in Hrun as (w3 & [] & Hparse & Hrun).
  unfold bind, emit in Hrun. simpl in Hrun. injection Hrun as <-.
  unfold parse_outputs, run_parse_functions in Hparse. rewrite Hfn in Hparse.
  apply bind_inv_ok in Hparse as (wm & [] & Hm & Hparse).
  apply bind_inv_ok in Hparse as (wl & [] & Hl & Ha).
  destruct (quiet_logfile_phase n _ _ _ _ _ _ _ _ Hl) as (Hstl & es3 & Hevl & Hc3).
  destruct (quiet_artifacts_phase n _ _ _ _ _ _ _ _ Ha) as (Hsta & es4 & Heva & Hc4).
  simpl in Hm. rewrite Hmd in Hm. unfold range in Hm.
  rewrite HN, Nat2Z.id in Hm. rewrite seq_S, !fmap_app in Hm, Hdirs. simpl in Hm, Hdirs.
  rewrite (parse_dirs_flush E run _ n ent) in Hm by exact Hdirs.
  match type of Hm with aggregate_and_log _ _ _ ?l _ = _ => set (all := l) in Hm end.
  destruct (decide (reduce (collect all) = [])) as [He|Hne].
  { by rewrite aggregate_and_log_empty in Hm. }
  rewrite aggregate_and_log_nonempty in Hm by done. injection Hm as <-.
  split.
  - unfold events_since. simpl. rewrite Heva, Hevl. simpl. rewrite Hev2.
    rewrite <- !app_assoc, drop_app_length.
    rewrite !aggregates_emitted_app, Hc1, Hc3, Hc4.
    pose proof (flush_emits_one_aggregate run (yaml (ent (sweep_metrics_dir self run
                  (Z.of_nat N)))) (_metrics_args (sweep_base self)) (reduce (collect all)))
      as Hone.
    assert (sweep_metrics_dir self run (Z.of_nat N)
              ∈ (sweep_metrics_dir self run <$> (Z.of_nat <$> seq 0 N))
                ++ [sweep_metrics_dir self run (Z.of_nat N)]) as Hlast
      by (apply elem_of_app; right; apply list_elem_of_here).
    rewrite (proj2 (proj2 (proj2 (Hdirs _ Hlast)))) in Hone. rewrite Hone.
    rewrite (aggregates_emitted_none n [WandbLog _ _ _ _]).
    + done.
    + intros e ->%list_elem_of_singleton.
      apply bool_decide_eq_false, duration_key_not_avg.
  - simpl. rewrite Hsta, Hstl. simpl. apply lookup_delete_eq.
Qed.

Lemma sweep_run_emits_one_aggregate_witness :
  (sweep_do_run_experiment env_one_file Sample.sweep_wrapper Sample.w0).2 = Ok tt ∧
  aggregates_emitted "pdr"
    (events_since Sample.w0
       (sweep_do_run_experiment env_one_file Sample.sweep_wrapper Sample.w0).1) = 1 ∧
  metrics_storage (sweep_do_run_experiment env_one_file Sample.sweep_wrapper Sample.w0).1
    !! "pdr" = None.
Proof.
  assert ((sweep_do_run_experiment env_one_file Sample.sweep_wrapper Sample.w0).2 = Ok tt)
    as Hok by (vm_compute; reflexivity).
  split; [exact Hok|].
  assert (sweep_do_run_experiment env_one_file Sample.sweep_wrapper Sample.w0 =
          ((sweep_do_run_experiment env_one_file Sample.sweep_wrapper Sample.w0).1, Ok tt))
    as Hrun by (rewrite <- Hok; apply surjective_pairing).
  refine (sweep_run_emits_one_aggregate env_one_file Sample.sweep_wrapper 2 "pdr"
            (λ _, Sample.entry_a) Sample.w0 _ eq_refl eq_refl _ Hrun).
  intros d Hd.
  change (d ∈ ["/metrics/sw33p_run_run0_0"; "/metrics/sw33p_run_run0_1";
               "/metrics/sw33p_run_run0_2"]) in Hd.
  rewrite !elem_of_cons in Hd.
  destruct Hd as [->|[->|[->|Hd]]]; [by repeat split .. |].
  exfalso. exact (proj1 (elem_of_nil d) Hd).
Defined.

(** ** Log tables of the parsing dispatch *)







